(** * Stock dashboard: the two Dash variants [app.py] and [st2.py]

    A shallow embedding of the callbacks of the dashboard and of its start-up
    code.  Prices are Python floats, hence IEEE binary64 values: they are
    modelled by Rocq's primitive floats, so that [df.close * 1.1] is the very
    multiplication the interpreter performs.  The services the program calls
    (the data provider, the clock, the file system, pandas' rolling and
    exponential means, stockstats' indicator columns) are fields of an
    environment record [Env]; every theorem holds for all environments.

    What is taken from the libraries: a fetched frame has the provider's daily
    columns and a date index; [series[-k]] on such a series is positional, as
    in the pandas releases the code was written for; the provider and pandas'
    rolling and exponential means return a value.  stockstats returns an
    indicator column when the frame has lower-case price columns, as
    yahoo_fin's frames do in [st2.py]; it fails on yfinance's capitalised
    columns, which [app.py] hands it unchanged. *)

From Stdlib Require Import ZArith List String Ascii Bool Lia DecimalString.
From Corelib Require Import PrimFloat FloatOps SpecFloat.
Import ListNotations.

Open Scope string_scope.
Open Scope Z_scope.

(** ** Python values, exceptions and effects *)

(** The objects a pickled ticker list may hold. *)
Inductive PyVal : Type :=
| PyStr (s : string)
| PyInt (n : Z)
| PyNone.

Definition string_of_nonneg (n : Z) : string :=
  NilZero.string_of_uint (N.to_uint (Z.to_N n)).

(** [str(v)]. *)
Definition py_str (v : PyVal) : string :=
  match v with
  | PyStr s => s
  | PyInt n => if n <? 0 then "-" ++ string_of_nonneg (- n) else string_of_nonneg n
  | PyNone => "None"
  end.

Definition is_str (v : PyVal) : bool :=
  match v with PyStr _ => true | _ => false end.

(** [StockstatsError] stands for what stockstats raises when the frame it is
    asked an indicator of has no lower-case [close] column; the class of that
    exception depends on the stockstats release. *)
Inductive Exn : Type :=
| UnboundLocalError (name : string)
| IndexError (pos : Z) (size : nat)
| FileNotFoundError (path : string)
| TypeError (msg : string)
| StockstatsError (indicator : string).

Definition date := Z.

Record Row : Type := mkRow {
  r_date : date;
  r_open : float;
  r_high : float;
  r_low : float;
  r_close : float;
  r_volume : float
}.

Arguments mkRow r_date%_Z (r_open r_high r_low r_close r_volume)%_float.

(** A price frame: one row per trading day, indexed by date. *)
Definition DataFrame := list Row.

Inductive Event : Type :=
| EvPrint (s : string)
| EvPrintHead (rows : DataFrame)
| EvFetch (ticker : string) (start_date end_date : date)
| EvLivePrice (ticker : string)
| EvOpen (path : string)
| EvRender (template : string).

Inductive Result (A : Type) : Type :=
| Ok (a : A)
| Raise (e : Exn).
Arguments Ok {A} a.
Arguments Raise {A} e.

(** Computations that log their effects and may raise. *)
Definition M (A : Type) : Type := (list Event * Result A)%type.

Definition ret {A} (a : A) : M A := ([], Ok a).

Definition bind {A B} (c : M A) (k : A -> M B) : M B :=
  match c with
  | (l, Ok a) => let (l', r) := k a in ((l ++ l')%list, r)
  | (l, Raise e) => (l, Raise e)
  end.

Definition emit (e : Event) : M unit := ([e], Ok tt).
Definition raise {A} (e : Exn) : M A := ([], Raise e).
Definition lift {A} (r : Result A) : M A := ([], r).

Notation "x <- c ;; k" := (bind c (fun x => k))
  (at level 200, c at level 100, k at level 200, right associativity).
Notation "c ;;; k" := (bind c (fun _ => k))
  (at level 200, k at level 200, right associativity).

Definition events {A} (c : M A) : list Event := fst c.
Definition outcome {A} (c : M A) : Result A := snd c.

Definition is_fetch (e : Event) : bool :=
  match e with EvFetch _ _ _ => true | _ => false end.

Definition is_file_open (e : Event) : bool :=
  match e with EvOpen _ => true | _ => false end.

Definition count_events (p : Event -> bool) (l : list Event) : nat :=
  List.length (filter p l).

(** ** Frames and series *)

Definition df_index (df : DataFrame) : list date := map r_date df.
Definition col_open (df : DataFrame) : list float := map r_open df.
Definition col_high (df : DataFrame) : list float := map r_high df.
Definition col_low (df : DataFrame) : list float := map r_low df.
Definition col_close (df : DataFrame) : list float := map r_close df.

(** [df.empty] *)
Definition df_empty (df : DataFrame) : bool :=
  match df with [] => true | _ => false end.

(** [df.head()] *)
Definition df_head (df : DataFrame) : DataFrame := firstn 5 df.

(** Positional access [xs[i]] with Python's negative positions. *)
Definition iloc {A} (xs : list A) (i : Z) : Result A :=
  let n := Z.of_nat (List.length xs) in
  let j := if i <? 0 then n + i else i in
  if (j <? 0) || (n <=? j) then Raise (IndexError i (List.length xs))
  else match nth_error xs (Z.to_nat j) with
       | Some v => Ok v
       | None => Raise (IndexError i (List.length xs))
       end.

(** ** Formatting a float with [:.2f]

    The exact binary value is rounded to two decimals, ties to even. *)

Definition round_half_even (n d : Z) : Z :=
  let q := n / d in
  let r := n mod d in
  if 2 * r <? d then q
  else if d <? 2 * r then q + 1
  else if Z.even q then q else q + 1.

Definition two_digits (n : Z) : string :=
  string_of_nonneg (n / 10) ++ string_of_nonneg (n mod 10).

Definition format_2f (x : float) : string :=
  match Prim2SF x with
  | S754_nan => "nan"
  | S754_infinity s => if s then "-inf" else "inf"
  | S754_zero s => if s then "-0.00" else "0.00"
  | S754_finite s m e =>
      let hundredths :=
        if 0 <=? e then Zpos m * 100 * 2 ^ e
        else round_half_even (Zpos m * 100) (2 ^ (- e)) in
      (if s then "-" else "") ++
      string_of_nonneg (hundredths / 100) ++ "." ++ two_digits (hundredths mod 100)
  end.

Definition is_digit (ch : ascii) : bool :=
  (48 <=? nat_of_ascii ch)%nat && (nat_of_ascii ch <=? 57)%nat.

(** ** Plotly figures *)

Record Marker : Type := mkMarker { m_size : Z; m_color : string }.
Record LineStyle : Type := mkLine { l_color : string; l_width : Z; l_dash : string }.

Record ScatterArgs : Type := mkScatter {
  sc_x : list date;
  sc_y : list float;
  sc_name : string;
  sc_fill : option string;
  sc_mode : option string;
  sc_text : list string;
  sc_textposition : option string;
  sc_marker : option Marker;
  sc_line : option LineStyle
}.

(** [go.Scatter(x=..., y=..., name=...)] with no other attribute. *)
Definition scatter (x : list date) (y : list float) (name : string) : ScatterArgs :=
  mkScatter x y name None None [] None None None.

Record CandleArgs : Type := mkCandle {
  c_x : list date;
  c_open : list float;
  c_high : list float;
  c_low : list float;
  c_close : list float;
  c_name : option string
}.

Record IndicatorArgs : Type := mkIndicator {
  i_mode : string;
  i_value : float;
  i_prefix : string;
  i_delta_position : string;
  i_delta_reference : float;
  i_title : string
}.

Inductive Trace : Type :=
| Scatter (a : ScatterArgs)
| Candlestick (a : CandleArgs)
| Ohlc (a : CandleArgs)
| Indicator (a : IndicatorArgs).

Record RangeButton : Type := mkButton {
  b_count : option Z;
  b_label : option string;
  b_step : string;
  b_stepmode : option string
}.

Record XAxes : Type := mkXAxes {
  rangeslider_visible : bool;
  activecolor : string;
  bgcolor : string;
  buttons : list RangeButton
}.

Record Layout : Type := mkLayout {
  height : option Z;
  title : option string;
  showlegend : option bool;
  plot_bgcolor : option string;
  paper_bgcolor : option string;
  font_color : option string;
  xaxes : option XAxes
}.

Record Figure : Type := mkFigure { data : list Trace; layout : Layout }.

(** What a callback hands back for a figure output: the dict [{}] or a figure. *)
Inductive FigureOut : Type :=
| EmptyDict
| Fig (f : Figure).

Definition empty_layout : Layout := mkLayout None None None None None None None.

(** [go.Figure()] *)
Definition go_Figure : Figure := mkFigure [] empty_layout.

Definition add_trace (t : Trace) (f : Figure) : Figure :=
  mkFigure (data f ++ [t])%list (layout f).

Definition add_traces (ts : list Trace) (f : Figure) : Figure :=
  fold_left (fun g t => add_trace t g) ts f.

Definition or_else {A} (new old : option A) : option A :=
  match new with Some _ => new | None => old end.

(** [fig.update_layout(...)]: the keys given replace the figure's, the others stay. *)
Definition update_layout (upd : Layout) (f : Figure) : Figure :=
  let l := layout f in
  mkFigure (data f)
    (mkLayout (or_else (height upd) (height l)) (or_else (title upd) (title l))
              (or_else (showlegend upd) (showlegend l))
              (or_else (plot_bgcolor upd) (plot_bgcolor l))
              (or_else (paper_bgcolor upd) (paper_bgcolor l))
              (or_else (font_color upd) (font_color l))
              (or_else (xaxes upd) (xaxes l))).

Definition update_xaxes (x : XAxes) (f : Figure) : Figure :=
  let l := layout f in
  mkFigure (data f)
    (mkLayout (height l) (title l) (showlegend l) (plot_bgcolor l)
              (paper_bgcolor l) (font_color l) (Some x)).

(** ** The environment *)

Record Env : Type := mkEnv {
  (** [datetime.now().date()] at the k-th reading of the clock in a call *)
  clock : nat -> date;
  (** the provider's daily history for a ticker between two dates *)
  fetch_history : string -> date -> date -> DataFrame;
  (** [yf.get_live_price] *)
  get_live_price : string -> float;
  (** [Series.rolling(w).mean()] on the values of a series *)
  rolling_mean : nat -> list float -> list float;
  (** [Series.ewm(span=w).mean()] on the values of a series *)
  ewm_mean : nat -> list float -> list float;
  (** [stock[name]] on a stockstats frame with lower-case price columns *)
  sdf_column : string -> DataFrame -> list float;
  (** what [open("tickers.pickle")] finds: [None] when the file is missing *)
  pickle_file : option (list PyVal);
  (** the position [random.choice] draws in a sequence of the given length *)
  randbelow : nat -> nat
}.

(** [random.choice(seq)] *)
Definition random_choice {A} (E : Env) (xs : list A) : Result A :=
  match xs with
  | [] => Raise (IndexError 0 0)
  | _ => match nth_error xs (randbelow E (List.length xs) mod List.length xs)%nat with
         | Some v => Ok v
         | None => Raise (IndexError 0 (List.length xs))
         end
  end.

(** [colors] *)
Definition colors_background : string := "#000000".

(** The provider call, logged. *)
Definition fetch (E : Env) (ticker : string) (start_date end_date : date) : M DataFrame :=
  emit (EvFetch ticker start_date end_date) ;;;
  ret (fetch_history E ticker start_date end_date).

(** ** The Dash layout, as far as the callbacks and the start-up code see it *)

Record AppLayout : Type := mkAppLayout {
  stock_name_options : list (string * string);
  stock_name_value : string;
  chart_options : list (string * string);
  chart_value : string;
  submit_n_clicks : Z
}.

(** The [options] of the chart dropdown, as (label, value) pairs. *)
Definition chart_dropdown (line candle : string) : list (string * string) :=
  [ (line, "Line"); (candle, "Candlestick");
    ("Simple moving average", "SMA"); ("Exponential moving average", "EMA");
    ("MACD", "MACD"); ("RSI", "RSI"); ("OHLC", "OHLC") ].

(** The module globals that start-up leaves behind. *)
Record Process : Type := mkProcess {
  ticker_list : list PyVal;
  app_layout : AppLayout
}.

(** [render_template(name)] *)
Definition render_template (name : string) : M string :=
  emit (EvRender name) ;;; ret name.

Definition home : M string := render_template "index.html".
Definition about : M string := render_template "about.html".

(** ** Variant [app.py] *)

Module App.

Definition colors_text : string := "#ffFFFF".

Definition default_tickers : list PyVal :=
  [PyStr "AAPL"; PyStr "GOOGL"; PyStr "MSFT"; PyStr "AMZN"; PyStr "TSLA"].

(** The [try: ... except FileNotFoundError: ...] around [pickle.load]. *)
Definition load_ticker_list (E : Env) : M (list PyVal) :=
  emit (EvOpen "tickers.pickle") ;;;
  match pickle_file E with
  | Some l => ret l
  | None =>
      emit (EvPrint "tickers.pickle not found. Using default tickers.") ;;;
      ret default_tickers
  end.

(** [app.layout = ...]: the parts that depend on the ticker list. *)
Definition make_layout (E : Env) (tickers : list PyVal) : M AppLayout :=
  let options := map (fun ticker => (py_str ticker, py_str ticker)) tickers in
  choice <- lift (random_choice E tickers) ;;
  ret (mkAppLayout options (py_str choice) (chart_dropdown "Line" "Candlestick") "Line" 0).

(** Module initialisation. *)
Definition startup (E : Env) : M Process :=
  tickers <- load_ticker_list E ;;
  lay <- make_layout E tickers ;;
  ret (mkProcess tickers lay).

Definition range_buttons : list RangeButton :=
  [ mkButton (Some 7) (Some "10D") "day" (Some "backward");
    mkButton (Some 15) (Some "15D") "day" (Some "backward");
    mkButton (Some 1) (Some "1m") "month" (Some "backward");
    mkButton (Some 3) (Some "3m") "month" (Some "backward");
    mkButton (Some 6) (Some "6m") "month" (Some "backward");
    mkButton (Some 1) (Some "1y") "year" (Some "backward") ].

(** [stock[name]] in [app.py]: [Sdf(df)] keeps yfinance's capitalised column
    names, so stockstats finds no [close] column to compute from. *)
Definition stock_column (name : string) (stock : DataFrame) : M (list float) :=
  raise (StockstatsError name).

(** The [if chart_name == ... elif ...] chain. *)
Definition select_graph (E : Env) (df stock : DataFrame) (chart_name : string)
    (fig : Figure) : M Figure :=
  if String.eqb chart_name "Line" then
    ret (add_trace (Scatter (mkScatter (df_index df) (col_close df) "Close"
                               (Some "tozeroy") None [] None None None)) fig)
  else if String.eqb chart_name "Candlestick" then
    ret (add_trace (Candlestick (mkCandle (df_index df) (col_open df) (col_high df)
                                   (col_low df) (col_close df) (Some "Candlestick"))) fig)
  else if String.eqb chart_name "SMA" then
    ret (add_traces
           [ Scatter (scatter (df_index df) (rolling_mean E 10 (col_close df)) "10 Days");
             Scatter (scatter (df_index df) (rolling_mean E 30 (col_close df)) "30 Days") ]
           fig)
  else if String.eqb chart_name "EMA" then
    ret (add_traces
           [ Scatter (scatter (df_index df) (ewm_mean E 10 (col_close df)) "10 Days");
             Scatter (scatter (df_index df) (ewm_mean E 30 (col_close df)) "30 Days") ]
           fig)
  else if String.eqb chart_name "MACD" then
    MACD <- stock_column "macd" stock ;;
    signal <- stock_column "macds" stock ;;
    hist <- stock_column "macdh" stock ;;
    ret (add_traces
           [ Scatter (scatter (df_index df) MACD "MACD");
             Scatter (scatter (df_index df) signal "Signal");
             Scatter (mkScatter (df_index df) hist "Histogram" None None [] None None
                        (Some (mkLine "royalblue" 2 "dot"))) ] fig)
  else if String.eqb chart_name "RSI" then
    rsi_6 <- stock_column "rsi_6" stock ;;
    rsi_12 <- stock_column "rsi_12" stock ;;
    ret (add_traces
           [ Scatter (scatter (df_index df) rsi_6 "RSI 6 Day");
             Scatter (scatter (df_index df) rsi_12 "RSI 12 Day") ] fig)
  else if String.eqb chart_name "OHLC" then
    ret (add_trace (Ohlc (mkCandle (df_index df) (col_open df) (col_high df)
                            (col_low df) (col_close df) None)) fig)
  else ret fig.

(** Layout and x axis of the chart, after the traces are in. *)
Definition style_chart (chart_name : string) (fig : Figure) : Figure :=
  update_xaxes (mkXAxes true "blue" colors_background range_buttons)
    (update_layout
       (mkLayout (Some 1000) (Some chart_name) (Some true) (Some colors_background)
                 (Some colors_background) (Some colors_text) None) fig).

(** The marker figure showing the most recent close. *)
Definition live_price_figure (ticker : string) (df : DataFrame) : M Figure :=
  x <- lift (iloc (df_index df) (-1)) ;;
  y <- lift (iloc (col_close df) (-1)) ;;
  shown <- lift (iloc (col_close df) (-1)) ;;
  let live_price_fig :=
    add_trace (Scatter (mkScatter [x] [y] "Live Price" None (Some "markers+text")
                          ["$" ++ format_2f shown] (Some "top center")
                          (Some (mkMarker 10 "red")) None)) go_Figure in
  ret (update_layout
         (mkLayout (Some 300) (Some ("Live Price of " ++ ticker)) (Some false)
                   (Some colors_background) (Some colors_background)
                   (Some colors_text) None) live_price_fig).

Definition graph_generator (E : Env) (n_clicks : Z) (ticker chart_name : string)
    : M (FigureOut * FigureOut) :=
  if n_clicks =? 0 then ret (EmptyDict, EmptyDict)
  else
    emit (EvPrint ("Fetching data for " ++ ticker ++ "...")) ;;;
    let start_date := clock E 0 - 5 * 365 in
    let end_date := clock E 1 in
    df <- fetch E ticker start_date end_date ;;
    if df_empty df then
      emit (EvPrint ("Error: No data returned for " ++ ticker ++ ".")) ;;;
      ret (EmptyDict, EmptyDict)
    else
      emit (EvPrint ("Data loaded successfully for " ++ ticker ++ ". First few rows:")) ;;;
      emit (EvPrintHead (df_head df)) ;;;
      let stock := df in
      live_price_fig <- live_price_figure ticker df ;;
      fig <- select_graph E df stock chart_name go_Figure ;;
      let fig := style_chart chart_name fig in
      ret (Fig fig, Fig live_price_fig).

End App.

(** ** Variant [st2.py] *)

Module St2.

Definition colors_text : string := "#FFFFFF".

(** The constant [1.1] of the source, as the interpreter reads it: the nearest
    binary64 value. *)
Definition markup : float := 0x1.199999999999ap+0%float.

(** [with open("tickers.pickle", "rb") as f: ticker_list = pickle.load(f)] *)
Definition load_ticker_list (E : Env) : M (list PyVal) :=
  emit (EvOpen "tickers.pickle") ;;;
  match pickle_file E with
  | Some l => ret l
  | None => raise (FileNotFoundError "tickers.pickle")
  end.

Definition initial_choices : list string :=
  ["TSLA"; "GOOGL"; "F"; "GE"; "AAL"; "DIS"; "DAL"; "AAPL"; "MSFT"; "CCL";
   "GPRO"; "ACB"; "PLUG"; "AMZN"].

(** [app.layout = ...]: the parts that depend on the ticker list. *)
Definition make_layout (E : Env) (tickers : list PyVal) : M AppLayout :=
  let options := map (fun ticker => (py_str ticker, py_str ticker)) tickers in
  choice <- lift (random_choice E initial_choices) ;;
  ret (mkAppLayout options choice (chart_dropdown "line" "candlestick") "Line" 1).

(** Module initialisation. *)
Definition startup (E : Env) : M Process :=
  tickers <- load_ticker_list E ;;
  lay <- make_layout E tickers ;;
  ret (mkProcess tickers lay).

(** [df.close = df.close * 1.1] *)
Definition scale_close (df : DataFrame) : DataFrame :=
  map (fun r => mkRow (r_date r) (r_open r) (r_high r) (r_low r)
                      (r_close r * markup)%float (r_volume r)) df.

(** The locals [df] and [stock]: bound only inside [if n_clicks >= 1]. *)
Record Locals : Type := mkLocals {
  loc_df : option DataFrame;
  loc_stock : option DataFrame
}.

Definition use_df (l : Locals) : M DataFrame :=
  match loc_df l with
  | Some df => ret df
  | None => raise (UnboundLocalError "df")
  end.

Definition use_stock (l : Locals) : M DataFrame :=
  match loc_stock l with
  | Some stock => ret stock
  | None => raise (UnboundLocalError "stock")
  end.

Definition range_buttons : list RangeButton :=
  [ mkButton (Some 30) (Some "30D") "day" (Some "backward");
    mkButton (Some 6) (Some "6M") "month" (Some "backward");
    mkButton (Some 1) (Some "1Y") "year" (Some "backward");
    mkButton (Some 5) (Some "5Y") "year" (Some "backward");
    mkButton None None "all" None ].

Definition not_iterable : string := "'method' object is not iterable".

(** [list(df.hist)]: on a frame the attribute [hist] is the plotting method of
    that name, not the column stored under ["hist"], and a method is not
    iterable. *)
Definition hist_attribute (column : list float) : M (list float) :=
  raise (TypeError not_iterable).

(** The [if chart_name == ... elif ...] chain. *)
Definition select_graph (E : Env) (l : Locals) (chart_name : string) (fig : Figure)
    : M Figure :=
  if String.eqb chart_name "Line" then
    df <- use_df l ;;
    ret (add_trace (Scatter (mkScatter (df_index df) (col_close df) "close"
                               (Some "tozeroy") None [] None None None)) fig)
  else if String.eqb chart_name "Candlestick" then
    df <- use_df l ;;
    ret (add_trace (Candlestick (mkCandle (df_index df) (col_open df) (col_high df)
                                   (col_low df) (col_close df) (Some "Candlestick"))) fig)
  else if String.eqb chart_name "SMA" then
    df <- use_df l ;;
    ret (add_traces
           [ Scatter (scatter (df_index df) (rolling_mean E 10 (col_close df)) "10 Days");
             Scatter (scatter (df_index df) (rolling_mean E 15 (col_close df)) "15 Days");
             Scatter (scatter (df_index df) (rolling_mean E 30 (col_close df)) "30 Days");
             Scatter (scatter (df_index df) (rolling_mean E 100 (col_close df)) "100 Days") ]
           fig)
  else if String.eqb chart_name "EMA" then
    df <- use_df l ;;
    ret (add_traces
           [ Scatter (scatter (df_index df) (ewm_mean E 10 (col_close df)) "10 Days");
             Scatter (scatter (df_index df) (ewm_mean E 15 (col_close df)) "15 Days");
             Scatter (scatter (df_index df) (ewm_mean E 30 (col_close df)) "30 Days");
             Scatter (scatter (df_index df) (ewm_mean E 100 (col_close df)) "100 Days") ]
           fig)
  else if String.eqb chart_name "MACD" then
    stock <- use_stock l ;;
    let MACD := sdf_column E "macd" stock in
    let signal := sdf_column E "macds" stock in
    let hist := sdf_column E "macdh" stock in
    df <- use_df l ;;
    let fig :=
      add_traces [ Scatter (scatter (df_index df) MACD "MACD");
                   Scatter (scatter (df_index df) signal "Signal") ] fig in
    hist_values <- hist_attribute hist ;;
    ret (add_trace
           (Scatter (mkScatter (df_index df) hist_values "Histogram" None None [] None
                       None (Some (mkLine "royalblue" 2 "dot")))) fig)
  else if String.eqb chart_name "RSI" then
    stock <- use_stock l ;;
    let rsi_6 := sdf_column E "rsi_6" stock in
    let rsi_12 := sdf_column E "rsi_12" stock in
    df <- use_df l ;;
    ret (add_traces
           [ Scatter (scatter (df_index df) rsi_6 "RSI 6 Day");
             Scatter (scatter (df_index df) rsi_12 "RSI 12 Day") ] fig)
  else if String.eqb chart_name "OHLC" then
    df <- use_df l ;;
    ret (add_trace (Ohlc (mkCandle (df_index df) (col_open df) (col_high df)
                            (col_low df) (col_close df) None)) fig)
  else ret fig.

(** Layout and x axis of the chart, after the traces are in. *)
Definition style_chart (chart_name : string) (fig : Figure) : Figure :=
  update_xaxes (mkXAxes true "green" "green" range_buttons)
    (update_layout
       (mkLayout (Some 1000) (Some chart_name) (Some true) (Some colors_background)
                 (Some colors_background) (Some colors_text) None) fig).

(** The indicator figure: last close, with the close before it as reference. *)
Definition live_price_figure (ticker : string) (l : Locals) : M Figure :=
  df <- use_df l ;;
  value <- lift (iloc (col_close df) (-1)) ;;
  reference <- lift (iloc (col_close df) (-2)) ;;
  let live_price :=
    mkFigure [Indicator (mkIndicator "number+delta" value "$" "top" reference
                           (ticker ++ " Live Price"))] empty_layout in
  ret (update_layout
         (mkLayout (Some 200) None None (Some colors_background)
                   (Some colors_background) (Some colors_text) None) live_price).

(** The body of [if n_clicks >= 1]. *)
Definition load_data (E : Env) (n_clicks : Z) (ticker : string) : M Locals :=
  if 1 <=? n_clicks then
    let start_date := clock E 0 - 5 * 365 in
    let end_date := clock E 1 in
    df <- fetch E ticker start_date end_date ;;
    let df := scale_close df in
    let stock := df in
    ret (mkLocals (Some df) (Some stock))
  else ret (mkLocals None None).

Definition graph_generator (E : Env) (n_clicks : Z) (ticker chart_name : string)
    : M (Figure * Figure) :=
  l <- load_data E n_clicks ticker ;;
  fig <- select_graph E l chart_name go_Figure ;;
  let fig := style_chart chart_name fig in
  live_price <- live_price_figure ticker l ;;
  ret (fig, live_price).

(** [if n1 or n2]: truth value of a click counter that may still be [None]. *)
Definition truthy (n : option Z) : bool :=
  match n with
  | Some k => negb (k =? 0)
  | None => false
  end.

Definition toggle_modal (E : Env) (n1 n2 : option Z) (is_open : bool)
    (stock_name : string) : M (bool * string) :=
  if truthy n1 || truthy n2 then
    if negb is_open then
      emit (EvLivePrice stock_name) ;;;
      let live_price := get_live_price E stock_name in
      let modal_body :=
        "Do you want to buy " ++ stock_name ++ " at $" ++
        format_2f (live_price * markup)%float ++ "?" in
      ret (true, modal_body)
    else ret (false, "")
  else ret (is_open, "").

End St2.

(** ** What the claims speak of *)

(** The values of the chart dropdown. *)
Definition dropdown_values : list string :=
  map snd (chart_dropdown "Line" "Candlestick").

(** Moving-average traces: one per window, each over the same index and the
    same column of values, named after its window. *)
Definition ma_traces (mean : nat -> list float -> list float) (windows : list nat)
    (index : list date) (column : list float) : list Trace :=
  map (fun w => Scatter (scatter index (mean w column)
                           (string_of_nonneg (Z.of_nat w) ++ " Days"))) windows.

(** The window a call asks the provider for: from 5 * 365 days before the
    first reading of the clock to the second reading. *)
Definition window_start (E : Env) : date := clock E 0 - 5 * 365.
Definition window_end (E : Env) : date := clock E 1.

(** The frame the provider returns for that window. *)
Definition history (E : Env) (ticker : string) : DataFrame :=
  fetch_history E ticker (window_start E) (window_end E).

(** ** An executable environment

    Simple stand-ins for the numerical libraries, enough to run the model. *)

Definition fsum (xs : list float) : float := fold_left PrimFloat.add xs 0%float.

Definition fcount {A} (xs : list A) : float :=
  fold_left (fun a _ => (a + 1)%float) xs 0%float.

Definition window_mean (w i : nat) (xs : list float) : float :=
  if (i + 1 <? w)%nat then nan
  else let win := firstn w (skipn (i + 1 - w) xs) in (fsum win / fcount win)%float.

Definition plain_rolling_mean (w : nat) (xs : list float) : list float :=
  map (fun i => window_mean w i xs) (seq 0 (List.length xs)).

Fixpoint ewm_from (keep num den : float) (xs : list float) : list float :=
  match xs with
  | [] => []
  | x :: rest =>
      let num' := (x + keep * num)%float in
      let den' := (1 + keep * den)%float in
      (num' / den')%float :: ewm_from keep num' den' rest
  end.

Definition plain_ewm_mean (span : nat) (xs : list float) : list float :=
  let alpha := (2 / (fcount (seq 0 span) + 1))%float in
  ewm_from (1 - alpha)%float 0%float 0%float xs.

Definition plain_indicator (name : string) (df : DataFrame) : list float :=
  let close := col_close df in
  let macd := map (fun p => (fst p - snd p)%float)
                  (combine (plain_ewm_mean 12 close) (plain_ewm_mean 26 close)) in
  let macds := plain_ewm_mean 9 macd in
  if String.eqb name "macd" then macd
  else if String.eqb name "macds" then macds
  else if String.eqb name "macdh" then
    map (fun p => (fst p - snd p)%float) (combine macd macds)
  else map (fun _ => 50%float) close.

Definition three_days : DataFrame :=
  [ mkRow 739190 100 102 99 101 5000;
    mkRow 739191 101 104 100 103 6000;
    mkRow 739192 103 105 102 104 7000 ].

Definition one_day : DataFrame := [ mkRow 739192 20 21 19 20 900 ].

(** A provider that knows three tickers: one with history, one listed today,
    and nothing for any other symbol. *)
Definition sample_history (ticker : string) (start_date end_date : date) : DataFrame :=
  if String.eqb ticker "AAPL" then three_days
  else if String.eqb ticker "NEWCO" then one_day
  else [].

Definition sample_env (file : option (list PyVal)) : Env :=
  mkEnv (fun _ => 739193) sample_history (fun _ => 200%float)
        plain_rolling_mean plain_ewm_mean plain_indicator file (fun _ => 2%nat).

(** ** The dispatch, as a table *)

(** Position of the first entry of [l] equal to [s]. *)
Fixpoint index_of (s : string) (l : list string) : option nat :=
  match l with
  | [] => None
  | x :: rest => if String.eqb s x then Some 0%nat else option_map S (index_of s rest)
  end.

(** The traces of the branch a chart type selects: one row of the table per
    dropdown value, none for any other string. *)
Definition dispatch (branches : list (list Trace)) (chart_name : string) : list Trace :=
  match index_of chart_name dropdown_values with
  | Some i => nth i branches []
  | None => []
  end.

(** The traces the seven branches draw, in dropdown order, for given window
    sizes and a given name of the line trace.  A branch that raises does not
    get to hand over its row. *)
Definition branches (E : Env) (line_name : string) (windows : list nat)
    (df stock : DataFrame) : list (list Trace) :=
  [ [ Scatter (mkScatter (df_index df) (col_close df) line_name (Some "tozeroy")
                 None [] None None None) ];
    [ Candlestick (mkCandle (df_index df) (col_open df) (col_high df) (col_low df)
                     (col_close df) (Some "Candlestick")) ];
    ma_traces (rolling_mean E) windows (df_index df) (col_close df);
    ma_traces (ewm_mean E) windows (df_index df) (col_close df);
    [ Scatter (scatter (df_index df) (sdf_column E "macd" stock) "MACD");
      Scatter (scatter (df_index df) (sdf_column E "macds" stock) "Signal");
      Scatter (mkScatter (df_index df) (sdf_column E "macdh" stock) "Histogram"
                 None None [] None None (Some (mkLine "royalblue" 2 "dot"))) ];
    [ Scatter (scatter (df_index df) (sdf_column E "rsi_6" stock) "RSI 6 Day");
      Scatter (scatter (df_index df) (sdf_column E "rsi_12" stock) "RSI 12 Day") ];
    [ Ohlc (mkCandle (df_index df) (col_open df) (col_high df) (col_low df)
              (col_close df) None) ] ].

Definition app_windows : list nat := [10; 30]%nat.
Definition st2_windows : list nat := [10; 15; 30; 100]%nat.

(** The live-price figures the two variants build from the closes they hold. *)
Definition app_live (ticker : string) (x : date) (y : float) : Figure :=
  mkFigure
    [ Scatter (mkScatter [x] [y] "Live Price" None (Some "markers+text")
                 ["$" ++ format_2f y] (Some "top center") (Some (mkMarker 10 "red")) None) ]
    (mkLayout (Some 300) (Some ("Live Price of " ++ ticker)) (Some false)
              (Some colors_background) (Some colors_background)
              (Some App.colors_text) None).

Definition st2_live (ticker : string) (value reference : float) : Figure :=
  mkFigure
    [ Indicator (mkIndicator "number+delta" value "$" "top" reference
                   (ticker ++ " Live Price")) ]
    (mkLayout (Some 200) None None (Some colors_background) (Some colors_background)
              (Some St2.colors_text) None).

(** [df] and [stock] after the body of [if n_clicks >= 1] ran on a frame. *)
Definition bound (df : DataFrame) : St2.Locals :=
  St2.mkLocals (Some (St2.scale_close df)) (Some (St2.scale_close df)).

Definition unbound : St2.Locals := St2.mkLocals None None.

(** [df] and [stock] as the guard [if n_clicks >= 1] of a call leaves them. *)
Definition locals_after (E : Env) (n_clicks : Z) (ticker : string) : St2.Locals :=
  if 1 <=? n_clicks then bound (history E ticker) else unbound.

(** The chart types whose branch asks stockstats for a column. *)
Definition asks_stockstats (chart_name : string) : bool :=
  String.eqb chart_name "MACD" || String.eqb chart_name "RSI".

(** The first column such a branch asks for. *)
Definition first_indicator (chart_name : string) : string :=
  if String.eqb chart_name "MACD" then "macd" else "rsi_6".

(** The closes [st2.py] shows for the closes the provider returned. *)
Definition marked_up (closes : list float) : list float :=
  map (fun p => (p * St2.markup)%float) closes.

Definition pyval_eqb (a b : PyVal) : bool :=
  match a, b with
  | PyStr s, PyStr s' => String.eqb s s'
  | PyInt n, PyInt n' => n =? n'
  | PyNone, PyNone => true
  | _, _ => false
  end.

Fixpoint list_eqb {A} (eqb : A -> A -> bool) (l l' : list A) : bool :=
  match l, l' with
  | [], [] => true
  | x :: r, y :: r' => eqb x y && list_eqb eqb r r'
  | _, _ => false
  end.

(** The claim about start-up, decided on a run: start-up succeeded, the list it
    holds is the one in the file, it is non-empty, and all entries are strings. *)
Definition startup_as_claimed (E : Env) (start : M Process) : bool :=
  match pickle_file E, outcome start with
  | Some l, Ok p =>
      list_eqb pyval_eqb l (ticker_list p)
      && negb (Nat.eqb (List.length (ticker_list p)) 0)
      && forallb is_str (ticker_list p)
  | _, _ => false
  end.

(** The claim that a call only dispatches on the chart type: it ends with a
    chart figure, and nothing in its log reports an error. *)
Definition is_error_report (e : Event) : bool :=
  match e with
  | EvPrint s => String.prefix "Error" s
  | _ => false
  end.

Definition only_dispatches (c : M (FigureOut * FigureOut)) : bool :=
  match outcome c with
  | Ok (Fig _, _) => negb (existsb is_error_report (events c))
  | _ => false
  end.

(** The mean a moving-average chart type plots. *)
Definition moving_average (E : Env) (chart_name : string)
    : nat -> list float -> list float :=
  if String.eqb chart_name "SMA" then rolling_mean E else ewm_mean E.

(** ** Readings of traces and logs *)

(** The x values a trace is drawn against. *)
Definition trace_x (tr : Trace) : list date :=
  match tr with
  | Scatter a => sc_x a
  | Candlestick a => c_x a
  | Ohlc a => c_x a
  | Indicator _ => []
  end.

(** A candle trace with its closes multiplied by the markup of [st2.py]. *)
Definition mark_up_trace (tr : Trace) : Trace :=
  match tr with
  | Candlestick a =>
      Candlestick (mkCandle (c_x a) (c_open a) (c_high a) (c_low a)
                     (marked_up (c_close a)) (c_name a))
  | Ohlc a =>
      Ohlc (mkCandle (c_x a) (c_open a) (c_high a) (c_low a)
              (marked_up (c_close a)) (c_name a))
  | other => other
  end.

Definition is_live_price (e : Event) : bool :=
  match e with EvLivePrice _ => true | _ => false end.

(** How many traces a dropdown value other than MACD draws, given the number
    of windows. *)
Definition trace_count (windows : nat) (chart_name : string) : nat :=
  if String.eqb chart_name "SMA" || String.eqb chart_name "EMA" then windows
  else if String.eqb chart_name "RSI" then 2%nat
  else 1%nat.

(** * Properties *)

(** ** Positional access *)

Lemma iloc_from_end {A} (xs : list A) (k : Z) (d : A) :
  1 <= k <= Z.of_nat (List.length xs) ->
  iloc xs (- k) = Ok (nth (List.length xs - Z.to_nat k) xs d).
Proof.
  intros Hk. unfold iloc.
  replace (- k <? 0) with true by (symmetry; apply Z.ltb_lt; lia).
  replace (Z.of_nat (List.length xs) + - k <? 0) with false
    by (symmetry; apply Z.ltb_ge; lia).
  replace (Z.of_nat (List.length xs) <=? Z.of_nat (List.length xs) + - k) with false
    by (symmetry; apply Z.leb_gt; lia).
  cbn [orb].
  replace (Z.to_nat (Z.of_nat (List.length xs) + - k))
    with (List.length xs - Z.to_nat k)%nat by lia.
  rewrite (nth_error_nth' xs d) by lia. reflexivity.
Qed.


Lemma col_close_length (df : DataFrame) : List.length (col_close df) = List.length df.
Proof. apply length_map. Qed.

Lemma df_index_length (df : DataFrame) : List.length (df_index df) = List.length df.
Proof. apply length_map. Qed.


Lemma scale_close_index (df : DataFrame) : df_index (St2.scale_close df) = df_index df.
Proof. unfold df_index, St2.scale_close. rewrite map_map. reflexivity. Qed.

Lemma scale_close_open (df : DataFrame) : col_open (St2.scale_close df) = col_open df.
Proof. unfold col_open, St2.scale_close. rewrite map_map. reflexivity. Qed.

Lemma scale_close_high (df : DataFrame) : col_high (St2.scale_close df) = col_high df.
Proof. unfold col_high, St2.scale_close. rewrite map_map. reflexivity. Qed.

Lemma scale_close_low (df : DataFrame) : col_low (St2.scale_close df) = col_low df.
Proof. unfold col_low, St2.scale_close. rewrite map_map. reflexivity. Qed.

Lemma scale_close_close (df : DataFrame) :
  col_close (St2.scale_close df) = marked_up (col_close df).
Proof. unfold marked_up, col_close, St2.scale_close. rewrite !map_map. reflexivity. Qed.

(** ** The chain of comparisons is the table lookup *)

Ltac chain c :=
  repeat match goal with
         | |- context [String.eqb c ?s] =>
             let H := fresh "Hc" in
             destruct (String.eqb c s) eqn:H;
             [ apply String.eqb_eq in H; subst c; reflexivity | ]
         end.

Lemma app_select_graph_dispatch (E : Env) (df stock : DataFrame) (c : string)
    (fig : Figure) :
  App.select_graph E df stock c fig
  = if asks_stockstats c then raise (StockstatsError (first_indicator c))
    else ret (add_traces (dispatch (branches E "Close" app_windows df stock) c) fig).
Proof.
  unfold App.select_graph, asks_stockstats, first_indicator, dispatch,
    dropdown_values, chart_dropdown.
  cbn [map snd index_of]. chain c. reflexivity.
Qed.

Lemma st2_select_graph_dispatch (E : Env) (df : DataFrame) (c : string) (fig : Figure) :
  St2.select_graph E (bound df) c fig
  = if String.eqb c "MACD" then raise (TypeError St2.not_iterable)
    else ret (add_traces
                (dispatch (branches E "close" st2_windows (St2.scale_close df)
                             (St2.scale_close df)) c) fig).
Proof.
  unfold St2.select_graph, dispatch, dropdown_values, chart_dropdown.
  cbn [map snd index_of]. chain c. reflexivity.
Qed.

Lemma dispatch_listed (bs : list (list Trace)) (c : string) :
  In c dropdown_values -> Forall (fun b => b <> []) bs -> List.length bs = 7%nat ->
  dispatch bs c <> [].
Proof.
  intros Hin Hall Hlen.
  do 8 (destruct bs as [| ? bs]; try discriminate).
  repeat match goal with H : Forall _ (_ :: _) |- _ => inversion H; subst; clear H end.
  cbn in Hin.
  repeat (destruct Hin as [<- | Hin]; [ assumption | ]). contradiction.
Qed.

Lemma dispatch_unlisted (bs : list (list Trace)) (c : string) :
  ~ In c dropdown_values -> dispatch bs c = [].
Proof.
  intros Hout. unfold dispatch, dropdown_values, chart_dropdown.
  cbn [map snd index_of].
  repeat match goal with
         | |- context [String.eqb c ?s] =>
             let H := fresh "Hc" in
             destruct (String.eqb c s) eqn:H;
             [ apply String.eqb_eq in H; subst c; exfalso; apply Hout; cbn; tauto | ]
         end.
  reflexivity.
Qed.

Lemma branches_nonempty (E : Env) (name : string) (ws : list nat) (df stock : DataFrame) :
  ws <> [] -> Forall (fun b => b <> []) (branches E name ws df stock).
Proof.
  intros Hws. unfold branches, ma_traces.
  repeat constructor; try discriminate;
    (destruct ws; [ contradiction | discriminate ]).
Qed.

Lemma add_traces_data (ts : list Trace) (fig : Figure) :
  data (add_traces ts fig) = (data fig ++ ts)%list.
Proof.
  unfold add_traces. revert fig.
  induction ts as [| t ts IH]; intros fig; cbn.
  - now rewrite app_nil_r.
  - rewrite IH. cbn. now rewrite <- app_assoc.
Qed.

Lemma iloc_last {A} (xs : list A) (d : A) :
  xs <> [] -> iloc xs (-1) = Ok (last xs d).
Proof.
  intros Hne. destruct (exists_last Hne) as (front & a & ->).
  rewrite last_last.
  rewrite (iloc_from_end _ 1 d) by (rewrite length_app; cbn; lia).
  rewrite length_app. cbn [List.length].
  replace (List.length front + 1 - Z.to_nat 1)%nat with (List.length front) by lia.
  now rewrite nth_middle.
Qed.

(** ** What a call of [graph_generator] amounts to *)

Lemma st2_graph_generator_clicked (E : Env) (n : Z) (t c : string) :
  1 <= n ->
  St2.graph_generator E n t c
  = ([EvFetch t (window_start E) (window_end E)],
     if String.eqb c "MACD" then Raise (TypeError St2.not_iterable)
     else
       match iloc (marked_up (col_close (history E t))) (-1),
             iloc (marked_up (col_close (history E t))) (-2) with
       | Ok value, Ok reference =>
           Ok (St2.style_chart c
                 (add_traces
                    (dispatch (branches E "close" st2_windows
                                 (St2.scale_close (history E t))
                                 (St2.scale_close (history E t))) c) go_Figure),
               st2_live t value reference)
       | Raise e, _ => Raise e
       | Ok _, Raise e => Raise e
       end).
Proof.
  intros Hn. unfold St2.graph_generator, St2.load_data.
  replace (1 <=? n) with true by (symmetry; apply Z.leb_le; exact Hn).
  unfold fetch. fold (window_start E) (window_end E). fold (history E t).
  cbn [bind emit ret app].
  change (St2.mkLocals _ _) with (bound (history E t)).
  rewrite st2_select_graph_dispatch.
  destruct (String.eqb c "MACD"); [ reflexivity | ].
  unfold St2.live_price_figure, St2.use_df, bound, lift, ret, bind. cbn [St2.loc_df app].
  rewrite scale_close_close.
  destruct (iloc _ (-1)) as [v | e]; [ | reflexivity ].
  destruct (iloc _ (-2)) as [r | e]; reflexivity.
Qed.

(** The same with two rows or more and a chart type other than MACD. *)
Lemma st2_graph_generator_charted (E : Env) (n : Z) (t c : string) :
  1 <= n -> (2 <= List.length (history E t))%nat -> String.eqb c "MACD" = false ->
  exists value reference,
    iloc (marked_up (col_close (history E t))) (-1) = Ok value
    /\ iloc (marked_up (col_close (history E t))) (-2) = Ok reference
    /\ St2.graph_generator E n t c
       = ([EvFetch t (window_start E) (window_end E)],
          Ok (St2.style_chart c
                (add_traces
                   (dispatch (branches E "close" st2_windows
                                (St2.scale_close (history E t))
                                (St2.scale_close (history E t))) c) go_Figure),
              st2_live t value reference)).
Proof.
  intros Hn Hrows Hc. rewrite st2_graph_generator_clicked by exact Hn. rewrite Hc.
  rewrite (iloc_from_end _ 1 0%float), (iloc_from_end _ 2 0%float)
    by (unfold marked_up; rewrite length_map, col_close_length; lia).
  do 2 eexists. repeat split.
Qed.

Lemma st2_select_graph_unbound (E : Env) (c : string) (fig : Figure) :
  St2.select_graph E unbound c fig
  = if existsb (String.eqb c) ["MACD"; "RSI"] then raise (UnboundLocalError "stock")
    else if existsb (String.eqb c) dropdown_values then raise (UnboundLocalError "df")
    else ret fig.
Proof.
  unfold St2.select_graph, dropdown_values, chart_dropdown.
  cbn [map snd existsb].
  repeat match goal with
         | |- context [String.eqb c ?s] =>
             let H := fresh "Hc" in
             destruct (String.eqb c s) eqn:H;
             [ apply String.eqb_eq in H; subst c; reflexivity | ]
         end.
  reflexivity.
Qed.

Lemma st2_graph_generator_unclicked (E : Env) (n : Z) (t c : string) :
  n < 1 ->
  St2.graph_generator E n t c
  = ([], Raise (UnboundLocalError
                  (if existsb (String.eqb c) ["MACD"; "RSI"] then "stock" else "df"))).
Proof.
  intros Hn. unfold St2.graph_generator, St2.load_data.
  replace (1 <=? n) with false by (symmetry; apply Z.leb_gt; exact Hn).
  change (St2.mkLocals None None) with unbound.
  unfold ret at 1. cbn [bind].
  rewrite st2_select_graph_unbound.
  destruct (existsb (String.eqb c) ["MACD"; "RSI"]); [ reflexivity | ].
  destruct (existsb (String.eqb c) dropdown_values); reflexivity.
Qed.

Lemma app_graph_generator_clicked (E : Env) (n : Z) (t c : string) :
  n <> 0 -> history E t <> [] ->
  App.graph_generator E n t c
  = ([ EvPrint ("Fetching data for " ++ t ++ "...");
       EvFetch t (window_start E) (window_end E);
       EvPrint ("Data loaded successfully for " ++ t ++ ". First few rows:");
       EvPrintHead (df_head (history E t)) ],
     if asks_stockstats c then Raise (StockstatsError (first_indicator c))
     else
       Ok (Fig (App.style_chart c
                  (add_traces
                     (dispatch (branches E "Close" app_windows (history E t)
                                  (history E t)) c) go_Figure)),
           Fig (app_live t (last (df_index (history E t)) 0)
                  (last (col_close (history E t)) 0%float)))).
Proof.
  intros Hn Hdf. unfold App.graph_generator.
  replace (n =? 0) with false by (symmetry; apply Z.eqb_neq; exact Hn).
  unfold fetch. fold (window_start E) (window_end E). fold (history E t).
  destruct (history E t) as [| r rest] eqn:Hh; [ contradiction | ].
  cbn [bind emit ret app df_empty].
  unfold App.live_price_figure.
  rewrite (iloc_last (df_index (r :: rest)) 0) by discriminate.
  rewrite (iloc_last (col_close (r :: rest)) 0%float) by discriminate.
  unfold lift, ret, bind. cbn [app].
  rewrite app_select_graph_dispatch.
  destruct (asks_stockstats c); reflexivity.
Qed.

(** The same for a chart type that does not go through stockstats. *)
Lemma app_graph_generator_charted (E : Env) (n : Z) (t c : string) :
  n <> 0 -> history E t <> [] -> asks_stockstats c = false ->
  App.graph_generator E n t c
  = ([ EvPrint ("Fetching data for " ++ t ++ "...");
       EvFetch t (window_start E) (window_end E);
       EvPrint ("Data loaded successfully for " ++ t ++ ". First few rows:");
       EvPrintHead (df_head (history E t)) ],
     Ok (Fig (App.style_chart c
                (add_traces
                   (dispatch (branches E "Close" app_windows (history E t)
                                (history E t)) c) go_Figure)),
         Fig (app_live t (last (df_index (history E t)) 0)
                (last (col_close (history E t)) 0%float)))).
Proof.
  intros Hn Hdf Hc. rewrite app_graph_generator_clicked by assumption.
  now rewrite Hc.
Qed.

Lemma app_graph_generator_no_rows (E : Env) (n : Z) (t c : string) :
  n <> 0 -> history E t = [] ->
  App.graph_generator E n t c
  = ([ EvPrint ("Fetching data for " ++ t ++ "...");
       EvFetch t (window_start E) (window_end E);
       EvPrint ("Error: No data returned for " ++ t ++ ".") ],
     Ok (EmptyDict, EmptyDict)).
Proof.
  intros Hn Hdf. unfold App.graph_generator.
  replace (n =? 0) with false by (symmetry; apply Z.eqb_neq; exact Hn).
  unfold fetch. fold (window_start E) (window_end E). fold (history E t).
  rewrite Hdf. reflexivity.
Qed.

(** ** Empty and short fetch results *)

(** In [app.py] an empty fetch ends in a pair of empty figures, whatever the
    click count, the ticker and the chart type. *)
Lemma app_graph_generator_empty_fetch (E : Env) (n : Z) (t c : string) :
  history E t = [] ->
  outcome (App.graph_generator E n t c) = Ok (EmptyDict, EmptyDict).
Proof.
  intros Hdf. destruct (Z.eq_dec n 0) as [-> | Hn].
  - reflexivity.
  - now rewrite app_graph_generator_no_rows.
Qed.

(** C1, as the code of [st2.py] has it: the variant has no check for an empty
    frame, so once the button was clicked an empty fetch result does not give
    two empty figures; the call raises, for every ticker and every chart
    type: [IndexError] at [df.close[-1]], and for MACD already [TypeError] at
    [list(df.hist)]. *)
Theorem st2_graph_generator_empty_fetch (E : Env) (n : Z) (t c : string) :
  1 <= n -> history E t = [] ->
  St2.graph_generator E n t c
  = ([EvFetch t (window_start E) (window_end E)],
     Raise (if String.eqb c "MACD" then TypeError St2.not_iterable
            else IndexError (-1) 0)).
Proof.
  intros Hn Hdf. rewrite st2_graph_generator_clicked by exact Hn.
  rewrite Hdf. destruct (String.eqb c "MACD"); reflexivity.
Qed.

Lemma st2_graph_generator_empty_fetch_witness :
  1 <= 1
  /\ history (sample_env None) "ZZZZ" = []
  /\ St2.graph_generator (sample_env None) 1 "ZZZZ" "Line"
     = ([EvFetch "ZZZZ" 737368 739193], Raise (IndexError (-1) 0)).
Proof.
  split; [ lia | split; [ reflexivity | ] ].
  apply (st2_graph_generator_empty_fetch (sample_env None) 1 "ZZZZ" "Line");
    [ lia | reflexivity ].
Defined.

(** In [app.py] every dropdown value other than MACD and RSI yields a chart
    with a trace as soon as the fetch has a row. *)
Lemma app_chart_has_trace (E : Env) (n : Z) (t c : string) :
  In c dropdown_values -> asks_stockstats c = false -> n <> 0 -> history E t <> [] ->
  exists fig lp,
    outcome (App.graph_generator E n t c) = Ok (Fig fig, Fig lp) /\ data fig <> [].
Proof.
  intros Hc Hplain Hn Hdf. rewrite app_graph_generator_charted by assumption.
  eexists. eexists. split; [ reflexivity | ].
  unfold App.style_chart, update_xaxes, update_layout. cbn [data].
  rewrite add_traces_data. cbn [data go_Figure app].
  apply dispatch_listed; [ exact Hc | | reflexivity ].
  apply branches_nonempty. discriminate.
Qed.

(** In [app.py] MACD and RSI never give a chart: past the two guards the
    call raises inside stockstats. *)
Lemma app_indicator_charts_raise (E : Env) (n : Z) (t c : string) :
  asks_stockstats c = true -> n <> 0 -> history E t <> [] ->
  outcome (App.graph_generator E n t c) = Raise (StockstatsError (first_indicator c)).
Proof.
  intros Hc Hn Hdf. rewrite app_graph_generator_clicked by assumption.
  now rewrite Hc.
Qed.

(** In [st2.py] every dropdown value other than MACD yields a chart with a
    trace from two rows on. *)
Lemma st2_chart_has_trace (E : Env) (n : Z) (t c : string) :
  In c dropdown_values -> String.eqb c "MACD" = false ->
  1 <= n -> (2 <= List.length (history E t))%nat ->
  exists fig lp,
    outcome (St2.graph_generator E n t c) = Ok (fig, lp) /\ data fig <> [].
Proof.
  intros Hc Hplain Hn Hdf.
  destruct (st2_graph_generator_charted E n t c Hn Hdf Hplain) as (v & r & _ & _ & ->).
  eexists. eexists. split; [ reflexivity | ].
  unfold St2.style_chart, update_xaxes, update_layout. cbn [data].
  rewrite add_traces_data. cbn [data go_Figure app].
  apply dispatch_listed; [ exact Hc | | reflexivity ].
  apply branches_nonempty. discriminate.
Qed.

(** In [st2.py] MACD never gives a chart: once the button was clicked the
    call raises at [list(df.hist)], whatever was fetched. *)
Lemma st2_macd_raises (E : Env) (n : Z) (t : string) :
  1 <= n ->
  outcome (St2.graph_generator E n t "MACD") = Raise (TypeError St2.not_iterable).
Proof.
  intros Hn. now rewrite st2_graph_generator_clicked.
Qed.

(** C2, as the code of [st2.py] has it: a fetch result of exactly one row is
    non-empty, yet no chart figure comes back for any chart type; the call
    raises [IndexError] at [df.close[-2]] after the chart was built, and for
    MACD already [TypeError] at [list(df.hist)]. *)
Theorem st2_graph_generator_single_row (E : Env) (n : Z) (t c : string) :
  1 <= n -> List.length (history E t) = 1%nat ->
  St2.graph_generator E n t c
  = ([EvFetch t (window_start E) (window_end E)],
     Raise (if String.eqb c "MACD" then TypeError St2.not_iterable
            else IndexError (-2) 1)).
Proof.
  intros Hn Hdf. rewrite st2_graph_generator_clicked by exact Hn.
  destruct (history E t) as [| r [| r' rest]]; try discriminate.
  destruct (String.eqb c "MACD"); reflexivity.
Qed.

Lemma st2_graph_generator_single_row_witness :
  1 <= 1
  /\ List.length (history (sample_env None) "NEWCO") = 1%nat
  /\ In "Line" dropdown_values
  /\ St2.graph_generator (sample_env None) 1 "NEWCO" "Line"
     = ([EvFetch "NEWCO" 737368 739193], Raise (IndexError (-2) 1)).
Proof.
  split; [ lia | split; [ reflexivity | split; [ left; reflexivity | ] ] ].
  apply (st2_graph_generator_single_row (sample_env None) 1 "NEWCO" "Line");
    [ lia | reflexivity ].
Defined.

(** C9: in [app.py], a call with [n_clicks = 0] returns two empty figures and
    does nothing else: its log is empty, so no fetch was made. *)
Theorem app_graph_generator_before_click (E : Env) (t c : string) :
  App.graph_generator E 0 t c = ([], Ok (EmptyDict, EmptyDict))
  /\ count_events is_fetch (events (App.graph_generator E 0 t c)) = 0%nat.
Proof. split; reflexivity. Qed.




(** ** Moving averages and the marked-up close *)

Lemma iloc_map {A B} (f : A -> B) (xs : list A) (i : Z) :
  iloc (map f xs) i
  = match iloc xs i with
    | Ok v => Ok (f v)
    | Raise e => Raise e
    end.
Proof.
  unfold iloc. rewrite length_map.
  destruct ((_ <? 0) || (_ <=? _)); [ reflexivity | ].
  rewrite nth_error_map.
  destruct (nth_error xs _); reflexivity.
Qed.

Lemma dispatch_at (bs : list (list Trace)) :
  dispatch bs "Line" = nth 0 bs []
  /\ dispatch bs "Candlestick" = nth 1 bs []
  /\ dispatch bs "SMA" = nth 2 bs []
  /\ dispatch bs "EMA" = nth 3 bs []
  /\ dispatch bs "MACD" = nth 4 bs []
  /\ dispatch bs "RSI" = nth 5 bs []
  /\ dispatch bs "OHLC" = nth 6 bs [].
Proof. repeat split; reflexivity. Qed.

Lemma style_chart_data (c : string) (fig : Figure) :
  data (App.style_chart c fig) = data fig /\ data (St2.style_chart c fig) = data fig.
Proof. split; reflexivity. Qed.

(** C3: with SMA or EMA selected, the traces plotted are the rolling
    (respectively exponential) means of one column, the close column of the
    frame the callback holds, against the frame's index: windows 10 and 30 in
    [app.py], windows 10, 15, 30 and 100 in [st2.py] (where the frame's close
    column is the one [st2.py] stored back into it).  No other column of the
    frame enters [ma_traces]. *)
Theorem moving_averages_over_close (E : Env) (n : Z) (t c : string) :
  c = "SMA" \/ c = "EMA" -> n <> 0 -> history E t <> [] ->
  (exists fig lp,
     outcome (App.graph_generator E n t c) = Ok (Fig fig, Fig lp)
     /\ data fig
        = ma_traces (moving_average E c) [10; 30]%nat
            (df_index (history E t)) (col_close (history E t)))
  /\ (1 <= n -> (2 <= List.length (history E t))%nat ->
      exists fig lp,
        outcome (St2.graph_generator E n t c) = Ok (fig, lp)
        /\ data fig
           = ma_traces (moving_average E c) [10; 15; 30; 100]%nat
               (df_index (history E t))
               (col_close (St2.scale_close (history E t)))).
Proof.
  intros Hc Hn Hdf.
  assert (Hplain : asks_stockstats c = false /\ String.eqb c "MACD" = false)
    by (destruct Hc as [-> | ->]; split; reflexivity).
  destruct Hplain as [Happ Hst2]. split.
  - rewrite app_graph_generator_charted by assumption.
    eexists. eexists. split; [ reflexivity | ].
    rewrite (proj1 (style_chart_data _ _)), add_traces_data.
    destruct (dispatch_at (branches E "Close" app_windows (history E t) (history E t)))
      as (_ & _ & Hsma & Hema & _).
    destruct Hc as [-> | ->]; [ rewrite Hsma | rewrite Hema ]; reflexivity.
  - intros Hn1 Hrows.
    destruct (st2_graph_generator_charted E n t c Hn1 Hrows Hst2)
      as (v & r & _ & _ & ->).
    eexists. eexists. split; [ reflexivity | ].
    rewrite (proj2 (style_chart_data _ _)), add_traces_data.
    destruct (dispatch_at (branches E "close" st2_windows
                             (St2.scale_close (history E t))
                             (St2.scale_close (history E t))))
      as (_ & _ & Hsma & Hema & _).
    rewrite <- (scale_close_index (history E t)).
    destruct Hc as [-> | ->]; [ rewrite Hsma | rewrite Hema ]; reflexivity.
Qed.

Lemma moving_averages_over_close_witness :
  (exists fig lp,
     outcome (App.graph_generator (sample_env None) 1 "AAPL" "SMA") = Ok (Fig fig, Fig lp)
     /\ data fig
        = ma_traces plain_rolling_mean [10; 30]%nat [739190; 739191; 739192]
            [101; 103; 104]%float)
  /\ (exists fig lp,
        outcome (St2.graph_generator (sample_env None) 1 "AAPL" "EMA") = Ok (fig, lp)
        /\ data fig
           = ma_traces plain_ewm_mean [10; 15; 30; 100]%nat [739190; 739191; 739192]
               (col_close (St2.scale_close three_days))).
Proof.
  split.
  - apply (moving_averages_over_close (sample_env None) 1 "AAPL" "SMA");
      [ left; reflexivity | lia | discriminate ].
  - apply (moving_averages_over_close (sample_env None) 1 "AAPL" "EMA");
      [ right; reflexivity | lia | discriminate | lia | vm_compute; lia ].
Defined.

(** C8: whenever [st2.py]'s [graph_generator] returns, the frame behind both
    figures is the fetched one with its close column multiplied by 1.1, and by
    nothing else: the line chart, the candlestick and OHLC closes and the
    inputs of the SMA and EMA traces are the provider's closes times 1.1, and
    the live-price readout shows the provider's last close times 1.1 against
    the close before it times 1.1. *)
Theorem st2_closes_marked_up (E : Env) (n : Z) (t c : string) (fig lp : Figure) :
  outcome (St2.graph_generator E n t c) = Ok (fig, lp) ->
  col_close (St2.scale_close (history E t)) = marked_up (col_close (history E t))
  /\ data fig
     = dispatch (branches E "close" st2_windows (St2.scale_close (history E t))
                   (St2.scale_close (history E t))) c
  /\ (c = "Line" ->
      data fig
      = [ Scatter (mkScatter (df_index (history E t))
                     (marked_up (col_close (history E t))) "close" (Some "tozeroy")
                     None [] None None None) ])
  /\ (c = "Candlestick" ->
      data fig
      = [ Candlestick (mkCandle (df_index (history E t)) (col_open (history E t))
                         (col_high (history E t)) (col_low (history E t))
                         (marked_up (col_close (history E t))) (Some "Candlestick")) ])
  /\ (c = "SMA" ->
      data fig
      = ma_traces (rolling_mean E) [10; 15; 30; 100]%nat (df_index (history E t))
          (marked_up (col_close (history E t))))
  /\ (c = "EMA" ->
      data fig
      = ma_traces (ewm_mean E) [10; 15; 30; 100]%nat (df_index (history E t))
          (marked_up (col_close (history E t))))
  /\ (c = "OHLC" ->
      data fig
      = [ Ohlc (mkCandle (df_index (history E t)) (col_open (history E t))
                  (col_high (history E t)) (col_low (history E t))
                  (marked_up (col_close (history E t))) None) ])
  /\ exists last_close previous_close,
       iloc (col_close (history E t)) (-1) = Ok last_close
       /\ iloc (col_close (history E t)) (-2) = Ok previous_close
       /\ lp = st2_live t (last_close * St2.markup)%float
                 (previous_close * St2.markup)%float.
Proof.
  intros Hret.
  destruct (Z_lt_le_dec n 1) as [Hlt | Hge].
  { rewrite st2_graph_generator_unclicked in Hret by exact Hlt. discriminate. }
  rewrite st2_graph_generator_clicked in Hret by exact Hge.
  cbn [outcome snd] in Hret.
  destruct (String.eqb c "MACD"); [ discriminate | ].
  unfold marked_up in Hret. rewrite !iloc_map in Hret.
  destruct (iloc (col_close (history E t)) (-1)) as [p | e]; [ | discriminate ].
  destruct (iloc (col_close (history E t)) (-2)) as [q | e]; [ | discriminate ].
  injection Hret as <- <-.
  rewrite (proj2 (style_chart_data _ _)), add_traces_data. cbn [data go_Figure app].
  destruct (dispatch_at (branches E "close" st2_windows
                           (St2.scale_close (history E t))
                           (St2.scale_close (history E t))))
    as (Hline & Hcandle & Hsma & Hema & _ & _ & Hohlc).
  split; [ apply scale_close_close | ].
  split; [ reflexivity | ].
  rewrite <- (scale_close_close (history E t)), <- (scale_close_index (history E t)),
    <- (scale_close_open (history E t)), <- (scale_close_high (history E t)),
    <- (scale_close_low (history E t)).
  repeat split; try (intros ->);
    rewrite ?Hline, ?Hcandle, ?Hsma, ?Hema, ?Hohlc; try reflexivity.
  exists p, q. repeat split.
Qed.

Lemma st2_closes_marked_up_witness :
  exists fig lp,
    outcome (St2.graph_generator (sample_env None) 1 "AAPL" "Line") = Ok (fig, lp)
    /\ data fig
       = [ Scatter (mkScatter [739190; 739191; 739192]
                      [101 * St2.markup; 103 * St2.markup; 104 * St2.markup]%float
                      "close" (Some "tozeroy") None [] None None None) ]
    /\ lp = st2_live "AAPL" (104 * St2.markup)%float (103 * St2.markup)%float.
Proof.
  eexists. eexists. split; [ reflexivity | ].
  destruct (st2_closes_marked_up (sample_env None) 1 "AAPL" "Line" _ _ eq_refl)
    as (_ & _ & Hline & _ & _ & _ & _ & p & q & Hp & Hq & Hlp).
  split; [ exact (Hline eq_refl) | ].
  injection Hp as <-. injection Hq as <-. exact Hlp.
Defined.

(** ** The buy dialog *)

(** C5: a click of the buy button ([n1] counts at least one click) on a closed
    modal fetches the live price, opens the modal and shows the price times
    1.1 with two decimals; on an open modal it closes it with an empty body. *)
Theorem toggle_modal_buy_click (E : Env) (k : Z) (n2 : option Z) (stock_name : string) :
  1 <= k ->
  St2.toggle_modal E (Some k) n2 false stock_name
  = ([EvLivePrice stock_name],
     Ok (true,
         "Do you want to buy " ++ stock_name ++ " at $" ++
         format_2f (get_live_price E stock_name * St2.markup)%float ++ "?"))
  /\ St2.toggle_modal E (Some k) n2 true stock_name = ([], Ok (false, "")).
Proof.
  intros Hk. unfold St2.toggle_modal, St2.truthy.
  replace (k =? 0) with false by (symmetry; apply Z.eqb_neq; lia).
  split; reflexivity.
Qed.

Lemma toggle_modal_buy_click_witness :
  1 <= 1
  /\ St2.toggle_modal (sample_env None) (Some 1) None false "AAPL"
     = ([EvLivePrice "AAPL"], Ok (true, "Do you want to buy AAPL at $220.00?"))
  /\ St2.toggle_modal (sample_env None) (Some 1) None true "AAPL" = ([], Ok (false, "")).
Proof.
  split; [ lia | ].
  apply (toggle_modal_buy_click (sample_env None) 1 None "AAPL"). lia.
Defined.

(** ** Guards and dispatch *)

Lemma dispatch_one_branch (c : string) :
  (exists i, (i < 7)%nat /\ forall bs, dispatch bs c = nth i bs [])
  \/ (forall bs, dispatch bs c = []).
Proof.
  unfold dispatch, dropdown_values, chart_dropdown. cbn [map snd index_of].
  repeat match goal with
         | |- context [String.eqb c ?s] =>
             destruct (String.eqb c s);
             [ left; eexists; split; [ | intros bs; reflexivity ]; lia | ]
         end.
  right. reflexivity.
Qed.

Lemma outcome_bind {A B} (c : M A) (k : A -> M B) :
  outcome (bind c k)
  = match outcome c with
    | Ok a => outcome (k a)
    | Raise e => Raise e
    end.
Proof.
  destruct c as [l [a | e]]; cbn; [ | reflexivity ].
  destruct (k a); reflexivity.
Qed.

Lemma st2_load_data_outcome (E : Env) (n : Z) (t : string) :
  outcome (St2.load_data E n t) = Ok (locals_after E n t).
Proof.
  unfold St2.load_data, locals_after. destruct (1 <=? n); reflexivity.
Qed.

(** C6, as the code has it.  A call makes at most one fetch.  In [app.py] two
    guards stand before the dispatch, each answering with a pair of empty
    figures: no click yet, and an empty fetch result.  Past them the call is
    the branch of the chart type followed by the styling, and what the branch
    raises the call raises.  [st2.py] has no error handling: it reports no
    error, and every call is the guard-free sequence of the branch of the
    chart type and the live-price figure, an exception of either being the
    outcome of the call.  The chain of comparisons picks one row of the
    branch table, the row of the chart type, or none when the chart type
    names no row; the MACD and RSI branches of [app.py] and the MACD branch of
    [st2.py] raise instead of handing over their row. *)
Theorem graph_generator_dispatch (E : Env) (n : Z) (t c : string) :
  (count_events is_fetch (events (App.graph_generator E n t c)) <= 1)%nat
  /\ (count_events is_fetch (events (St2.graph_generator E n t c)) <= 1)%nat
  /\ outcome (App.graph_generator E n t c)
     = (if (n =? 0) || df_empty (history E t) then Ok (EmptyDict, EmptyDict)
        else
          match outcome (App.select_graph E (history E t) (history E t) c go_Figure) with
          | Ok fig =>
              Ok (Fig (App.style_chart c fig),
                  Fig (app_live t (last (df_index (history E t)) 0)
                         (last (col_close (history E t)) 0%float)))
          | Raise e => Raise e
          end)
  /\ existsb is_error_report (events (St2.graph_generator E n t c)) = false
  /\ outcome (St2.graph_generator E n t c)
     = match outcome (St2.select_graph E (locals_after E n t) c go_Figure) with
       | Ok fig =>
           match outcome (St2.live_price_figure t (locals_after E n t)) with
           | Ok live_price => Ok (St2.style_chart c fig, live_price)
           | Raise e => Raise e
           end
       | Raise e => Raise e
       end
  /\ (forall df stock fig,
        App.select_graph E df stock c fig
        = if asks_stockstats c then raise (StockstatsError (first_indicator c))
          else ret (add_traces
                      (dispatch (branches E "Close" app_windows df stock) c) fig))
  /\ (forall df fig,
        St2.select_graph E (bound df) c fig
        = if String.eqb c "MACD" then raise (TypeError St2.not_iterable)
          else ret (add_traces
                      (dispatch (branches E "close" st2_windows (St2.scale_close df)
                                   (St2.scale_close df)) c) fig))
  /\ ((exists i, (i < 7)%nat /\ forall bs, dispatch bs c = nth i bs [])
      \/ (forall bs, dispatch bs c = [])).
Proof.
  split; [ | split; [ | split; [ | split; [ | split; [ | split; [ | split ] ] ] ] ] ].
  - destruct (Z.eq_dec n 0) as [-> | Hn]; [ cbn; lia | ].
    destruct (history E t) as [| r rest] eqn:Hdf.
    + rewrite app_graph_generator_no_rows by assumption. cbn. lia.
    + rewrite app_graph_generator_clicked by (try rewrite Hdf; congruence).
      cbn. lia.
  - destruct (Z_lt_le_dec n 1) as [Hlt | Hge].
    + rewrite st2_graph_generator_unclicked by exact Hlt. cbn. lia.
    + rewrite st2_graph_generator_clicked by exact Hge. cbn. lia.
  - destruct (Z.eq_dec n 0) as [-> | Hn]; [ reflexivity | ].
    replace (n =? 0) with false by (symmetry; apply Z.eqb_neq; exact Hn).
    destruct (history E t) as [| r rest] eqn:Hdf.
    + rewrite app_graph_generator_no_rows by assumption. reflexivity.
    + rewrite <- Hdf.
      rewrite app_graph_generator_clicked by (try rewrite Hdf; congruence).
      rewrite app_select_graph_dispatch. rewrite Hdf.
      destruct (asks_stockstats c); reflexivity.
  - destruct (Z_lt_le_dec n 1) as [Hlt | Hge].
    + now rewrite st2_graph_generator_unclicked.
    + now rewrite st2_graph_generator_clicked.
  - unfold St2.graph_generator.
    rewrite outcome_bind, st2_load_data_outcome, outcome_bind.
    destruct (outcome (St2.select_graph E (locals_after E n t) c go_Figure))
      as [fig | e]; [ | reflexivity ].
    rewrite outcome_bind.
    destruct (outcome (St2.live_price_figure t (locals_after E n t)));
      reflexivity.
  - intros df stock fig. apply app_select_graph_dispatch.
  - intros df fig. apply st2_select_graph_dispatch.
  - apply dispatch_one_branch.
Qed.

(** The claim of C6 fails on [app.py]: with the button clicked and nothing
    fetched, the call reports the error and returns two empty figures without
    entering the branch of the chart type; before the first click it returns
    them at once. *)
Lemma app_graph_generator_error_branch :
  App.graph_generator (sample_env None) 1 "ZZZZ" "Line"
  = ([ EvPrint "Fetching data for ZZZZ..."; EvFetch "ZZZZ" 737368 739193;
       EvPrint "Error: No data returned for ZZZZ." ],
     Ok (EmptyDict, EmptyDict))
  /\ only_dispatches (App.graph_generator (sample_env None) 1 "ZZZZ" "Line") = false
  /\ only_dispatches (App.graph_generator (sample_env None) 0 "AAPL" "Line") = false
  /\ only_dispatches (App.graph_generator (sample_env None) 1 "AAPL" "Line") = true.
Proof. repeat split; vm_compute; reflexivity. Qed.

Lemma graph_generator_dispatch_witness :
  outcome (App.graph_generator (sample_env None) 0 "AAPL" "SMA") = Ok (EmptyDict, EmptyDict)
  /\ outcome (App.graph_generator (sample_env None) 1 "AAPL" "RSI")
     = Raise (StockstatsError "rsi_6")
  /\ outcome (St2.graph_generator (sample_env None) 1 "AAPL" "MACD")
     = Raise (TypeError "'method' object is not iterable").
Proof.
  split; [ | split ].
  - exact (proj1 (proj2 (proj2
             (graph_generator_dispatch (sample_env None) 0 "AAPL" "SMA")))).
  - exact (proj1 (proj2 (proj2
             (graph_generator_dispatch (sample_env None) 1 "AAPL" "RSI")))).
  - exact (proj1 (proj2 (proj2 (proj2 (proj2
             (graph_generator_dispatch (sample_env None) 1 "AAPL" "MACD")))))).
Defined.

(** ** Start-up and the ticker list *)

Lemma random_choice_nonempty {A} (E : Env) (xs : list A) :
  xs <> [] -> exists v, random_choice E xs = Ok v /\ In v xs.
Proof.
  intros Hne. destruct xs as [| x rest]; [ contradiction | ].
  unfold random_choice.
  destruct (nth_error (x :: rest) _) as [v |] eqn:Hnth.
  - exists v. split; [ reflexivity | ]. eapply nth_error_In. exact Hnth.
  - apply nth_error_None in Hnth.
    pose proof (Nat.mod_upper_bound (randbelow E (List.length (x :: rest)))
                  (List.length (x :: rest))) as Hlt.
    cbn [List.length] in *. lia.
Qed.

Lemma app_make_layout_ok (E : Env) (l : list PyVal) :
  l <> [] ->
  exists lay,
    App.make_layout E l = ([], Ok lay)
    /\ stock_name_options lay = map (fun v => (py_str v, py_str v)) l.
Proof.
  intros Hne. unfold App.make_layout.
  destruct (random_choice_nonempty E l Hne) as (v & -> & _).
  eexists. split; reflexivity.
Qed.

Lemma st2_make_layout_ok (E : Env) (l : list PyVal) :
  exists lay,
    St2.make_layout E l = ([], Ok lay)
    /\ stock_name_options lay = map (fun v => (py_str v, py_str v)) l.
Proof.
  unfold St2.make_layout.
  destruct (random_choice_nonempty E St2.initial_choices) as (v & -> & _);
    [ discriminate | ].
  eexists. split; reflexivity.
Qed.

Lemma startup_opens_once (E : Env) :
  count_events is_file_open (events (App.startup E)) = 1%nat
  /\ count_events is_file_open (events (St2.startup E)) = 1%nat.
Proof.
  unfold App.startup, St2.startup, App.load_ticker_list, St2.load_ticker_list.
  destruct (pickle_file E) as [l |]; cbn [bind emit ret raise app].
  - destruct (st2_make_layout_ok E l) as (lay2 & -> & _).
    destruct l as [| x rest]; [ split; reflexivity | ].
    destruct (app_make_layout_ok E (x :: rest)) as (lay & -> & _);
      [ discriminate | ].
    split; reflexivity.
  - destruct (app_make_layout_ok E App.default_tickers) as (lay & -> & _);
      [ discriminate | ].
    split; reflexivity.
Qed.

(** C4, as the code has it.  Each variant opens [tickers.pickle] once.  When
    the file is there the ticker list is its content, taken as it is; when it
    is missing [app.py] falls back on its five built-in symbols and [st2.py]
    does not start.  The ticker dropdown of a started process has one option
    per entry of the list, in order, with [str] of the entry as label and as
    value. *)
Theorem startup_ticker_list (E : Env) :
  count_events is_file_open (events (App.startup E)) = 1%nat
  /\ count_events is_file_open (events (St2.startup E)) = 1%nat
  /\ match pickle_file E with
     | Some [] =>
         outcome (App.startup E) = Raise (IndexError 0 0)
         /\ exists lay,
              outcome (St2.startup E) = Ok (mkProcess [] lay)
              /\ stock_name_options lay = []
     | Some l =>
         (exists lay,
            outcome (App.startup E) = Ok (mkProcess l lay)
            /\ stock_name_options lay = map (fun v => (py_str v, py_str v)) l)
         /\ (exists lay,
               outcome (St2.startup E) = Ok (mkProcess l lay)
               /\ stock_name_options lay = map (fun v => (py_str v, py_str v)) l)
     | None =>
         (exists lay,
            outcome (App.startup E) = Ok (mkProcess App.default_tickers lay)
            /\ stock_name_options lay
               = map (fun v => (py_str v, py_str v)) App.default_tickers)
         /\ outcome (St2.startup E) = Raise (FileNotFoundError "tickers.pickle")
     end.
Proof.
  unfold App.startup, St2.startup, App.load_ticker_list, St2.load_ticker_list.
  destruct (pickle_file E) as [l |].
  - cbn [bind emit ret raise app].
    destruct (st2_make_layout_ok E l) as (lay2 & -> & Hopt2).
    destruct l as [| x rest].
    + repeat split. exists lay2. split; [ reflexivity | exact Hopt2 ].
    + destruct (app_make_layout_ok E (x :: rest)) as (lay & -> & Hopt);
        [ discriminate | ].
      repeat split; [ exists lay | exists lay2 ]; split; (reflexivity || assumption).
  - cbn [bind emit ret raise app].
    destruct (app_make_layout_ok E App.default_tickers) as (lay & -> & Hopt);
      [ discriminate | ].
    repeat split. exists lay. split; [ reflexivity | exact Hopt ].
Qed.

(** The claim of C4 fails on three runs: with the file missing [app.py] starts
    on a list that was not read from it; with an empty pickled list [st2.py]
    starts on an empty list; with a pickled list holding a number [st2.py]
    starts on a list whose entry is not a string. *)
Lemma startup_list_not_as_claimed :
  startup_as_claimed (sample_env None) (App.startup (sample_env None)) = false
  /\ option_map ticker_list
       (match outcome (App.startup (sample_env None)) with
        | Ok p => Some p
        | Raise _ => None
        end) = Some App.default_tickers
  /\ startup_as_claimed (sample_env (Some [])) (St2.startup (sample_env (Some []))) = false
  /\ option_map ticker_list
       (match outcome (St2.startup (sample_env (Some []))) with
        | Ok p => Some p
        | Raise _ => None
        end) = Some []
  /\ startup_as_claimed (sample_env (Some [PyInt 7]))
       (St2.startup (sample_env (Some [PyInt 7]))) = false
  /\ option_map ticker_list
       (match outcome (St2.startup (sample_env (Some [PyInt 7]))) with
        | Ok p => Some p
        | Raise _ => None
        end) = Some [PyInt 7]
  /\ startup_as_claimed (sample_env (Some [PyStr "AAPL"]))
       (St2.startup (sample_env (Some [PyStr "AAPL"]))) = true.
Proof. repeat split; vm_compute; reflexivity. Qed.

(** ** The ticker file after start-up *)

Lemma app_graph_generator_opens_nothing (E : Env) (n : Z) (t c : string) :
  count_events is_file_open (events (App.graph_generator E n t c)) = 0%nat.
Proof.
  destruct (Z.eq_dec n 0) as [-> | Hn]; [ reflexivity | ].
  destruct (history E t) as [| r rest] eqn:Hdf.
  - now rewrite app_graph_generator_no_rows.
  - rewrite app_graph_generator_clicked by (try rewrite Hdf; congruence).
    reflexivity.
Qed.

Lemma st2_graph_generator_opens_nothing (E : Env) (n : Z) (t c : string) :
  count_events is_file_open (events (St2.graph_generator E n t c)) = 0%nat.
Proof.
  destruct (Z_lt_le_dec n 1) as [Hlt | Hge].
  - now rewrite st2_graph_generator_unclicked.
  - now rewrite st2_graph_generator_clicked.
Qed.

(** X15: the ticker file is opened once, by the start-up code of either
    variant; no callback and no route opens it again, whatever it is called
    with and whether it returns or raises. *)
Theorem ticker_file_opened_once (E : Env) :
  count_events is_file_open (events (App.startup E)) = 1%nat
  /\ count_events is_file_open (events (St2.startup E)) = 1%nat
  /\ (forall n t c,
        count_events is_file_open (events (App.graph_generator E n t c)) = 0%nat)
  /\ (forall n t c,
        count_events is_file_open (events (St2.graph_generator E n t c)) = 0%nat)
  /\ (forall n1 n2 o s,
        count_events is_file_open (events (St2.toggle_modal E n1 n2 o s)) = 0%nat)
  /\ count_events is_file_open (events home) = 0%nat
  /\ count_events is_file_open (events about) = 0%nat.
Proof.
  destruct (startup_opens_once E) as (Happ & Hst2).
  split; [ exact Happ | split; [ exact Hst2 | ] ].
  split; [ intros n t c; apply app_graph_generator_opens_nothing | ].
  split; [ intros n t c; apply st2_graph_generator_opens_nothing | ].
  split; [ | split; reflexivity ].
  intros n1 n2 o s. unfold St2.toggle_modal.
  destruct (St2.truthy n1 || St2.truthy n2); [ destruct o | ]; reflexivity.
Qed.

(** ** Two decimals *)

Lemma one_digit (k : Z) :
  0 <= k < 10 ->
  exists ch, string_of_nonneg k = String ch "" /\ is_digit ch = true.
Proof.
  intros Hk.
  assert (Hcases : k = 0 \/ k = 1 \/ k = 2 \/ k = 3 \/ k = 4 \/ k = 5 \/ k = 6
                   \/ k = 7 \/ k = 8 \/ k = 9) by lia.
  repeat (destruct Hcases as [-> | Hcases]; [ eexists; split; reflexivity | ]).
  subst k. eexists. split; reflexivity.
Qed.

(** Every finite price is shown with a decimal point followed by exactly two
    digits. *)
Lemma format_2f_two_decimals (x : float) :
  match Prim2SF x with
  | S754_nan | S754_infinity _ => True
  | _ =>
      exists sign whole d1 d2,
        format_2f x = sign ++ whole ++ "." ++ String d1 (String d2 "")
        /\ is_digit d1 = true /\ is_digit d2 = true
  end.
Proof.
  unfold format_2f. destruct (Prim2SF x) as [sg | sg | | sg m e]; try exact I.
  - destruct sg; [ exists "-" | exists "" ]; exists "0", "0"%char, "0"%char;
      repeat split.
  - set (h := if 0 <=? e then Z.pos m * 100 * 2 ^ e
              else round_half_even (Z.pos m * 100) (2 ^ (- e))).
    cbv zeta. fold h.
    pose proof (Z.mod_pos_bound h 100 ltac:(lia)) as Hmod.
    destruct (one_digit (h mod 100 / 10)) as (d1 & Hd1 & Hdig1).
    { split; [ apply Z.div_pos; lia | apply Z.div_lt_upper_bound; lia ]. }
    destruct (one_digit (h mod 100 mod 10)) as (d2 & Hd2 & Hdig2).
    { apply Z.mod_pos_bound. lia. }
    exists (if sg then "-" else ""), (string_of_nonneg (h / 100)), d1, d2.
    unfold two_digits. rewrite Hd1, Hd2. repeat split; assumption.
Qed.

(** ** The buy dialog, all cases *)

(** X1: [toggle_modal] flips the modal exactly when one of the two buttons
    has been clicked and leaves it as it is otherwise; the live price is
    requested exactly when the modal opens, and the body is empty exactly when
    it does not. *)
Theorem toggle_modal_flips (E : Env) (n1 n2 : option Z) (o : bool) (s : string) :
  exists body,
    St2.toggle_modal E n1 n2 o s
    = ((if (St2.truthy n1 || St2.truthy n2) && negb o then [EvLivePrice s] else []),
       Ok (xorb (St2.truthy n1 || St2.truthy n2) o, body))
    /\ (body = "" <-> (St2.truthy n1 || St2.truthy n2) && negb o = false).
Proof.
  unfold St2.toggle_modal.
  destruct (St2.truthy n1 || St2.truthy n2); destruct o; cbn [negb andb xorb];
    eexists; (split; [ reflexivity | ]); split; intros H;
    try reflexivity; discriminate.
Qed.

(** X2: two clicks in a row, the second made on the state the first returned,
    bring the modal back to where it was, and the live price is requested once
    over the two calls. *)
Theorem toggle_modal_twice (E : Env) (n1 n2 m1 m2 : option Z) (o : bool) (s : string) :
  St2.truthy n1 || St2.truthy n2 = true ->
  St2.truthy m1 || St2.truthy m2 = true ->
  exists o1 b1 b2,
    outcome (St2.toggle_modal E n1 n2 o s) = Ok (o1, b1)
    /\ outcome (St2.toggle_modal E m1 m2 o1 s) = Ok (o, b2)
    /\ count_events is_live_price
         (events (St2.toggle_modal E n1 n2 o s)
          ++ events (St2.toggle_modal E m1 m2 o1 s))%list = 1%nat.
Proof.
  intros Hn Hm. unfold St2.toggle_modal. rewrite Hn, Hm.
  destruct o; cbn [negb]; do 3 eexists; repeat split.
Qed.

Lemma toggle_modal_twice_witness :
  exists o1 b1 b2,
    outcome (St2.toggle_modal (sample_env None) (Some 1) None false "AAPL") = Ok (o1, b1)
    /\ outcome (St2.toggle_modal (sample_env None) (Some 1) (Some 1) o1 "AAPL")
       = Ok (false, b2)
    /\ count_events is_live_price
         (events (St2.toggle_modal (sample_env None) (Some 1) None false "AAPL")
          ++ events (St2.toggle_modal (sample_env None) (Some 1) (Some 1) o1 "AAPL"))%list
       = 1%nat.
Proof.
  apply (toggle_modal_twice (sample_env None) (Some 1) None (Some 1) (Some 1) false "AAPL");
    reflexivity.
Defined.

(** ** When the callbacks return *)

(** X3: the three ways a call of [app.py]'s [graph_generator] ends.  It
    returns two empty dicts exactly when the button was not clicked or nothing
    was fetched.  Past these guards it raises inside stockstats for MACD and
    RSI and returns two figures for every other chart type; it never returns
    an empty dict next to a figure. *)
Theorem app_graph_generator_outcomes (E : Env) (n : Z) (t c : string) :
  (outcome (App.graph_generator E n t c) = Ok (EmptyDict, EmptyDict)
   /\ (n = 0 \/ history E t = []))
  \/ (n <> 0 /\ history E t <> []
      /\ ((asks_stockstats c = true
           /\ outcome (App.graph_generator E n t c)
              = Raise (StockstatsError (first_indicator c)))
          \/ (asks_stockstats c = false
              /\ exists fig lp,
                   outcome (App.graph_generator E n t c) = Ok (Fig fig, Fig lp)))).
Proof.
  destruct (Z.eq_dec n 0) as [-> | Hn].
  - left. split; [ reflexivity | left; reflexivity ].
  - destruct (history E t) as [| r rest] eqn:Hdf.
    + left. split; [ | right; reflexivity ].
      now rewrite app_graph_generator_no_rows.
    + right. split; [ exact Hn | split; [ discriminate | ] ].
      rewrite app_graph_generator_clicked by (try rewrite Hdf; congruence).
      destruct (asks_stockstats c).
      * left. split; reflexivity.
      * right. split; [ reflexivity | ]. do 2 eexists. reflexivity.
Qed.

(** X4: [st2.py]'s [graph_generator] returns exactly when the button was
    clicked, the fetch has at least two rows and the chart type is not
    MACD. *)
Theorem st2_graph_generator_returns_iff (E : Env) (n : Z) (t c : string) :
  (exists out, outcome (St2.graph_generator E n t c) = Ok out)
  <-> (1 <= n /\ (2 <= List.length (history E t))%nat /\ c <> "MACD").
Proof.
  split.
  - intros [out Hout].
    destruct (Z_lt_le_dec n 1) as [Hlt | Hge].
    { rewrite st2_graph_generator_unclicked in Hout by exact Hlt. discriminate. }
    rewrite st2_graph_generator_clicked in Hout by exact Hge.
    cbn [outcome snd] in Hout.
    destruct (String.eqb c "MACD") eqn:Hc; [ discriminate | ].
    apply String.eqb_neq in Hc.
    split; [ exact Hge | split; [ | exact Hc ] ].
    destruct (history E t) as [| r [| r' rest]]; cbn in Hout; try discriminate.
    cbn. lia.
  - intros (Hn & Hrows & Hc).
    apply String.eqb_neq in Hc.
    destruct (st2_graph_generator_charted E n t c Hn Hrows Hc) as (v & r & _ & _ & ->).
    eexists. reflexivity.
Qed.

(** X5: what goes out to the provider.  [app.py] asks once, for the ticker it
    was given, unless the button was not clicked; [st2.py] asks once when the
    button was clicked, and its whole log is that one request (it prints
    nothing).  The window asked for starts 1825 days before the first reading
    of the clock and ends at the second reading. *)
Theorem graph_generator_fetch_log (E : Env) (n : Z) (t c : string) :
  filter is_fetch (events (App.graph_generator E n t c))
  = (if n =? 0 then [] else [EvFetch t (clock E 0 - 1825) (clock E 1)])
  /\ events (St2.graph_generator E n t c)
     = (if 1 <=? n then [EvFetch t (clock E 0 - 1825) (clock E 1)] else []).
Proof.
  split.
  - destruct (Z.eq_dec n 0) as [-> | Hn]; [ reflexivity | ].
    replace (n =? 0) with false by (symmetry; apply Z.eqb_neq; exact Hn).
    destruct (history E t) as [| r rest] eqn:Hdf.
    + now rewrite app_graph_generator_no_rows.
    + rewrite app_graph_generator_clicked by (try rewrite Hdf; congruence).
      reflexivity.
  - destruct (Z_lt_le_dec n 1) as [Hlt | Hge].
    + replace (1 <=? n) with false by (symmetry; apply Z.leb_gt; exact Hlt).
      now rewrite st2_graph_generator_unclicked.
    + replace (1 <=? n) with true by (symmetry; apply Z.leb_le; exact Hge).
      now rewrite st2_graph_generator_clicked.
Qed.

(** X6: [app.py] prints its error line exactly when the button was clicked
    and the fetch came back empty. *)
Theorem app_error_report_iff (E : Env) (n : Z) (t c : string) :
  existsb is_error_report (events (App.graph_generator E n t c))
  = negb (n =? 0) && df_empty (history E t).
Proof.
  destruct (Z.eq_dec n 0) as [-> | Hn]; [ reflexivity | ].
  replace (n =? 0) with false by (symmetry; apply Z.eqb_neq; exact Hn).
  destruct (history E t) as [| r rest] eqn:Hdf.
  - now rewrite app_graph_generator_no_rows.
  - rewrite app_graph_generator_clicked by (try rewrite Hdf; congruence).
    reflexivity.
Qed.

(** ** What the figures hold *)

(** X7: in [app.py] the live-price figure is the same for every chart type
    that returns (all but MACD and RSI): one red marker at the last date of
    the frame, at the provider's last close as it came, labelled with that
    same close to two decimals. *)
Theorem app_live_price_shows_last_close (E : Env) (n : Z) (t c : string) :
  n <> 0 -> history E t <> [] -> asks_stockstats c = false ->
  exists g lp d p,
    outcome (App.graph_generator E n t c) = Ok (g, Fig lp)
    /\ iloc (df_index (history E t)) (-1) = Ok d
    /\ iloc (col_close (history E t)) (-1) = Ok p
    /\ data lp
       = [ Scatter (mkScatter [d] [p] "Live Price" None (Some "markers+text")
                      ["$" ++ format_2f p] (Some "top center")
                      (Some (mkMarker 10 "red")) None) ]
    /\ title (layout lp) = Some ("Live Price of " ++ t).
Proof.
  intros Hn Hdf Hc. rewrite app_graph_generator_charted by assumption.
  do 4 eexists. split; [ reflexivity | ].
  split; [ apply iloc_last; destruct (history E t); [ contradiction | discriminate ] | ].
  split; [ apply iloc_last; destruct (history E t); [ contradiction | discriminate ] | ].
  split; reflexivity.
Qed.

Lemma app_live_price_shows_last_close_witness :
  exists g lp,
    outcome (App.graph_generator (sample_env None) 1 "AAPL" "SMA") = Ok (g, Fig lp)
    /\ data lp
       = [ Scatter (mkScatter [739192] [104%float] "Live Price" None
                      (Some "markers+text") ["$104.00"] (Some "top center")
                      (Some (mkMarker 10 "red")) None) ].
Proof.
  destruct (app_live_price_shows_last_close (sample_env None) 1 "AAPL" "SMA")
    as (g & lp & d & p & Hout & Hd & Hp & Hdata & _);
    [ lia | discriminate | reflexivity | ].
  exists g, lp. split; [ exact Hout | ].
  injection Hd as <-. injection Hp as <-. exact Hdata.
Defined.

Lemma trace_count_dispatch (E : Env) (name : string) (ws : list nat)
    (df stock : DataFrame) (c : string) :
  In c dropdown_values -> c <> "MACD" ->
  List.length (dispatch (branches E name ws df stock) c)
  = trace_count (List.length ws) c.
Proof.
  intros Hc Hmacd. cbn in Hc.
  repeat (destruct Hc as [<- | Hc];
          [ first [ congruence
                  | reflexivity
                  | destruct (dispatch_at (branches E name ws df stock))
                      as (_ & _ & Hsma & Hema & _);
                    rewrite ?Hsma, ?Hema; cbn [nth branches];
                    unfold ma_traces; now rewrite length_map ] | ]).
  contradiction.
Qed.

(** X8: how many traces a returned chart holds.  Line, Candlestick and OHLC
    draw one; SMA and EMA draw one per window, two in [app.py] and four in
    [st2.py]; RSI, which returns in [st2.py] only, draws two.  The live-price
    figure of [st2.py] holds one indicator. *)
Theorem chart_trace_counts (E : Env) (n : Z) (t c : string) :
  In c dropdown_values -> c <> "MACD" -> n <> 0 -> history E t <> [] ->
  (c <> "RSI" ->
   exists fig lp,
     outcome (App.graph_generator E n t c) = Ok (Fig fig, Fig lp)
     /\ List.length (data fig) = trace_count 2 c)
  /\ (1 <= n -> (2 <= List.length (history E t))%nat ->
      exists fig lp,
        outcome (St2.graph_generator E n t c) = Ok (fig, lp)
        /\ List.length (data fig) = trace_count 4 c
        /\ List.length (data lp) = 1%nat).
Proof.
  intros Hc Hmacd Hn Hdf. split.
  - intros Hrsi.
    assert (Hplain : asks_stockstats c = false).
    { unfold asks_stockstats.
      apply String.eqb_neq in Hmacd, Hrsi. now rewrite Hmacd, Hrsi. }
    rewrite app_graph_generator_charted by assumption.
    do 2 eexists. split; [ reflexivity | ].
    rewrite (proj1 (style_chart_data _ _)), add_traces_data.
    cbn [data go_Figure app]. now rewrite trace_count_dispatch.
  - intros Hn1 Hrows.
    destruct (st2_graph_generator_charted E n t c Hn1 Hrows) as (v & r & _ & _ & ->);
      [ apply String.eqb_neq; exact Hmacd | ].
    do 2 eexists. split; [ reflexivity | ].
    rewrite (proj2 (style_chart_data _ _)), add_traces_data.
    cbn [data go_Figure app]. split; [ now rewrite trace_count_dispatch | reflexivity ].
Qed.

Lemma chart_trace_counts_witness :
  (exists fig lp,
     outcome (App.graph_generator (sample_env None) 1 "AAPL" "SMA") = Ok (Fig fig, Fig lp)
     /\ List.length (data fig) = 2%nat)
  /\ (exists fig lp,
        outcome (St2.graph_generator (sample_env None) 1 "AAPL" "RSI") = Ok (fig, lp)
        /\ List.length (data fig) = 2%nat
        /\ List.length (data lp) = 1%nat).
Proof.
  split.
  - apply (proj1 (chart_trace_counts (sample_env None) 1 "AAPL" "SMA"
                    ltac:(cbn; tauto) ltac:(discriminate) ltac:(lia)
                    ltac:(discriminate))).
    discriminate.
  - apply (proj2 (chart_trace_counts (sample_env None) 1 "AAPL" "RSI"
                    ltac:(cbn; tauto) ltac:(discriminate) ltac:(lia)
                    ltac:(discriminate)));
      [ lia | vm_compute; lia ].
Defined.

Lemma branches_x (E : Env) (name : string) (ws : list nat) (df stock : DataFrame) :
  Forall (Forall (fun tr => trace_x tr = df_index df)) (branches E name ws df stock).
Proof.
  assert (Hma : forall mean,
            Forall (fun tr => trace_x tr = df_index df)
              (ma_traces mean ws (df_index df) (col_close df))).
  { intros mean. unfold ma_traces. apply Forall_map.
    apply Forall_forall. intros w _. reflexivity. }
  unfold branches. repeat constructor; apply Hma.
Qed.

Lemma dispatch_Forall (P : Trace -> Prop) (bs : list (list Trace)) (c : string) :
  Forall (Forall P) bs -> Forall P (dispatch bs c).
Proof.
  intros Hall. unfold dispatch.
  destruct (index_of c dropdown_values) as [i |]; [ | constructor ].
  destruct (nth_in_or_default i bs []) as [Hin | ->]; [ | constructor ].
  rewrite Forall_forall in Hall. apply Hall. exact Hin.
Qed.

(** X9: every trace of a chart that a call returns is drawn against the date
    index of the fetched frame, whatever the chart type, in both variants. *)
Theorem chart_traces_on_frame_index (E : Env) (n : Z) (t c : string) :
  (forall fig lp,
     outcome (App.graph_generator E n t c) = Ok (Fig fig, lp) ->
     Forall (fun tr => trace_x tr = df_index (history E t)) (data fig))
  /\ (forall fig lp,
        outcome (St2.graph_generator E n t c) = Ok (fig, lp) ->
        Forall (fun tr => trace_x tr = df_index (history E t)) (data fig)).
Proof.
  split; intros fig lp Hout.
  - destruct (Z.eq_dec n 0) as [-> | Hn]; [ discriminate | ].
    destruct (history E t) as [| r rest] eqn:Hdf.
    { rewrite app_graph_generator_no_rows in Hout by assumption. discriminate. }
    rewrite <- Hdf in *.
    rewrite app_graph_generator_clicked in Hout by (try rewrite Hdf; congruence).
    cbn [outcome snd] in Hout.
    destruct (asks_stockstats c); [ discriminate | ].
    injection Hout as <- _.
    rewrite (proj1 (style_chart_data _ _)), add_traces_data.
    cbn [data go_Figure app]. apply dispatch_Forall, branches_x.
  - destruct (Z_lt_le_dec n 1) as [Hlt | Hge].
    { rewrite st2_graph_generator_unclicked in Hout by exact Hlt. discriminate. }
    rewrite st2_graph_generator_clicked in Hout by exact Hge.
    cbn [outcome snd] in Hout.
    destruct (String.eqb c "MACD"); [ discriminate | ].
    destruct (iloc _ (-1)) as [v | e]; [ | discriminate ].
    destruct (iloc _ (-2)) as [r | e]; [ | discriminate ].
    injection Hout as <- _.
    rewrite (proj2 (style_chart_data _ _)), add_traces_data.
    cbn [data go_Figure app]. rewrite <- (scale_close_index (history E t)).
    apply dispatch_Forall, branches_x.
Qed.

Lemma chart_traces_on_frame_index_witness :
  (exists fig lp,
     outcome (App.graph_generator (sample_env None) 1 "AAPL" "EMA") = Ok (Fig fig, lp)
     /\ Forall (fun tr => trace_x tr = [739190; 739191; 739192]) (data fig))
  /\ (exists fig lp,
        outcome (St2.graph_generator (sample_env None) 1 "AAPL" "RSI") = Ok (fig, lp)
        /\ Forall (fun tr => trace_x tr = [739190; 739191; 739192]) (data fig)).
Proof.
  split; do 2 eexists; (split; [ reflexivity | ]).
  - apply (proj1 (chart_traces_on_frame_index (sample_env None) 1 "AAPL" "EMA")
             _ _ eq_refl).
  - apply (proj2 (chart_traces_on_frame_index (sample_env None) 1 "AAPL" "RSI")
             _ _ eq_refl).
Defined.

(** X10: on the same fetched frame, the candlestick and OHLC charts of
    [st2.py] are those of [app.py] with the closes multiplied by 1.1; the
    opens, highs and lows are the same, so a marked-up close is drawn against
    an unchanged high. *)
Theorem st2_candles_are_app_candles_marked_up (E : Env) (n : Z) (t c : string) :
  c = "Candlestick" \/ c = "OHLC" -> 1 <= n -> (2 <= List.length (history E t))%nat ->
  exists afig alp sfig slp,
    outcome (App.graph_generator E n t c) = Ok (Fig afig, Fig alp)
    /\ outcome (St2.graph_generator E n t c) = Ok (sfig, slp)
    /\ data sfig = map mark_up_trace (data afig).
Proof.
  intros Hc Hn Hrows.
  assert (Hn0 : n <> 0) by lia.
  assert (Hdf : history E t <> [])
    by (destruct (history E t); [ cbn in Hrows; lia | discriminate ]).
  assert (Hplain : asks_stockstats c = false /\ String.eqb c "MACD" = false)
    by (destruct Hc as [-> | ->]; split; reflexivity).
  destruct Hplain as [Happ Hst2].
  rewrite app_graph_generator_charted by assumption.
  destruct (st2_graph_generator_charted E n t c Hn Hrows Hst2) as (v & r & _ & _ & ->).
  do 4 eexists. split; [ reflexivity | split; [ reflexivity | ] ].
  rewrite (proj1 (style_chart_data _ _)), (proj2 (style_chart_data _ _)),
    !add_traces_data.
  cbn [data go_Figure app].
  destruct (dispatch_at (branches E "Close" app_windows (history E t) (history E t)))
    as (_ & Hcandle & _ & _ & _ & _ & Hohlc).
  destruct (dispatch_at (branches E "close" st2_windows
                           (St2.scale_close (history E t))
                           (St2.scale_close (history E t))))
    as (_ & Hcandle' & _ & _ & _ & _ & Hohlc').
  destruct Hc as [-> | ->];
    rewrite ?Hcandle, ?Hcandle', ?Hohlc, ?Hohlc'; cbn [nth branches map mark_up_trace];
    rewrite scale_close_index, scale_close_open, scale_close_high, scale_close_low,
      scale_close_close; reflexivity.
Qed.

Lemma st2_candles_are_app_candles_marked_up_witness :
  exists afig alp sfig slp,
    outcome (App.graph_generator (sample_env None) 1 "AAPL" "OHLC") = Ok (Fig afig, Fig alp)
    /\ outcome (St2.graph_generator (sample_env None) 1 "AAPL" "OHLC") = Ok (sfig, slp)
    /\ data sfig = map mark_up_trace (data afig).
Proof.
  apply (st2_candles_are_app_candles_marked_up (sample_env None) 1 "AAPL" "OHLC");
    [ right; reflexivity | lia | vm_compute; lia ].
Defined.

(** ** From start-up to the first callback *)

Lemma app_make_layout_inv (E : Env) (l : list PyVal) (ev : list Event) (lay : AppLayout) :
  App.make_layout E l = (ev, Ok lay) ->
  submit_n_clicks lay = 0 /\ chart_value lay = "Line"
  /\ In (stock_name_value lay) (map snd (stock_name_options lay)).
Proof.
  unfold App.make_layout. intros Hlay.
  assert (Hne : l <> []) by (intros ->; discriminate Hlay).
  destruct (random_choice_nonempty E l Hne) as (v & Hv & Hin).
  rewrite Hv in Hlay. unfold lift, bind, ret in Hlay. injection Hlay as _ <-.
  cbn [submit_n_clicks chart_value stock_name_value stock_name_options].
  split; [ reflexivity | split; [ reflexivity | ] ].
  apply in_map_iff. exists (py_str v, py_str v). split; [ reflexivity | ].
  apply in_map_iff. exists v. split; [ reflexivity | exact Hin ].
Qed.

Lemma st2_make_layout_inv (E : Env) (l : list PyVal) (ev : list Event) (lay : AppLayout) :
  St2.make_layout E l = (ev, Ok lay) ->
  submit_n_clicks lay = 1 /\ chart_value lay = "Line"
  /\ In (stock_name_value lay) St2.initial_choices.
Proof.
  unfold St2.make_layout. intros Hlay.
  destruct (random_choice_nonempty E St2.initial_choices) as (v & Hv & Hin);
    [ discriminate | ].
  rewrite Hv in Hlay. cbn in Hlay. injection Hlay as _ <-.
  repeat split. exact Hin.
Qed.

Lemma app_startup_layout (E : Env) (p : Process) :
  outcome (App.startup E) = Ok p ->
  exists ev, App.make_layout E (ticker_list p) = (ev, Ok (app_layout p)).
Proof.
  unfold App.startup, App.load_ticker_list. intros Hp.
  destruct (pickle_file E) as [l |]; cbn [bind emit ret app] in Hp.
  - destruct (App.make_layout E l) as [ev [lay | e]] eqn:Hlay;
      cbn in Hp; [ | discriminate ].
    injection Hp as <-. exists ev. exact Hlay.
  - destruct (App.make_layout E App.default_tickers) as [ev [lay | e]] eqn:Hlay;
      cbn in Hp; [ | discriminate ].
    injection Hp as <-. exists ev. exact Hlay.
Qed.

Lemma st2_startup_layout (E : Env) (p : Process) :
  outcome (St2.startup E) = Ok p ->
  exists ev, St2.make_layout E (ticker_list p) = (ev, Ok (app_layout p)).
Proof.
  unfold St2.startup, St2.load_ticker_list. intros Hp.
  destruct (pickle_file E) as [l |]; cbn [bind emit ret raise app] in Hp;
    [ | discriminate ].
  destruct (St2.make_layout E l) as [ev [lay | e]] eqn:Hlay;
    cbn in Hp; [ | discriminate ].
  injection Hp as <-. exists ev. exact Hlay.
Qed.

(** X11: the ticker preselected at start-up.  In [app.py] it is always one of
    the values the ticker dropdown offers; in [st2.py] it is one of fourteen
    fixed symbols, drawn without looking at the ticker list. *)
Theorem preselected_ticker (E : Env) (p : Process) :
  (outcome (App.startup E) = Ok p ->
   In (stock_name_value (app_layout p))
      (map snd (stock_name_options (app_layout p))))
  /\ (outcome (St2.startup E) = Ok p ->
      In (stock_name_value (app_layout p)) St2.initial_choices).
Proof.
  split; intros Hp.
  - destruct (app_startup_layout E p Hp) as [ev Hlay].
    apply (app_make_layout_inv E _ _ _ Hlay).
  - destruct (st2_startup_layout E p Hp) as [ev Hlay].
    apply (st2_make_layout_inv E _ _ _ Hlay).
Qed.

Lemma preselected_ticker_witness :
  In "AAPL" ["AAPL"; "MSFT"] /\ In "F" St2.initial_choices.
Proof.
  split.
  - apply (proj1 (preselected_ticker
                    (sample_env (Some [PyStr "AAPL"; PyStr "MSFT"]))
                    (mkProcess [PyStr "AAPL"; PyStr "MSFT"]
                       (mkAppLayout [("AAPL", "AAPL"); ("MSFT", "MSFT")] "AAPL"
                          (chart_dropdown "Line" "Candlestick") "Line" 0)))).
    reflexivity.
  - apply (proj2 (preselected_ticker
                    (sample_env (Some [PyStr "AAPL"; PyStr "MSFT"]))
                    (mkProcess [PyStr "AAPL"; PyStr "MSFT"]
                       (mkAppLayout [("AAPL", "AAPL"); ("MSFT", "MSFT")] "F"
                          (chart_dropdown "line" "candlestick") "Line" 1)))).
    reflexivity.
Defined.

(** X12: the callback run on the initial values of the layout.  In [app.py]
    the button starts at no click, so that first call fetches nothing and
    returns two empty dicts; in [st2.py] it starts at one click, so the first
    call already asks the provider for the preselected ticker. *)
Theorem first_callback_after_startup (E : Env) (p : Process) :
  (outcome (App.startup E) = Ok p ->
   App.graph_generator E (submit_n_clicks (app_layout p))
     (stock_name_value (app_layout p)) (chart_value (app_layout p))
   = ([], Ok (EmptyDict, EmptyDict)))
  /\ (outcome (St2.startup E) = Ok p ->
      events (St2.graph_generator E (submit_n_clicks (app_layout p))
                (stock_name_value (app_layout p)) (chart_value (app_layout p)))
      = [EvFetch (stock_name_value (app_layout p)) (clock E 0 - 1825) (clock E 1)]).
Proof.
  split; intros Hp.
  - destruct (app_startup_layout E p Hp) as [ev Hlay].
    destruct (app_make_layout_inv E _ _ _ Hlay) as (-> & _ & _). reflexivity.
  - destruct (st2_startup_layout E p Hp) as [ev Hlay].
    destruct (st2_make_layout_inv E _ _ _ Hlay) as (-> & _ & _).
    now rewrite st2_graph_generator_clicked.
Qed.

Lemma first_callback_after_startup_witness :
  App.graph_generator (sample_env None) 0 "MSFT" "Line" = ([], Ok (EmptyDict, EmptyDict))
  /\ events (St2.graph_generator (sample_env (Some [])) 1 "F" "Line")
     = [EvFetch "F" 737368 739193].
Proof.
  split.
  - apply (proj1 (first_callback_after_startup (sample_env None)
                    (mkProcess App.default_tickers
                       (mkAppLayout (map (fun v => (py_str v, py_str v)) App.default_tickers)
                          "MSFT" (chart_dropdown "Line" "Candlestick") "Line" 0)))).
    reflexivity.
  - apply (proj2 (first_callback_after_startup (sample_env (Some []))
                    (mkProcess []
                       (mkAppLayout [] "F" (chart_dropdown "line" "candlestick")
                          "Line" 1)))).
    reflexivity.
Defined.

(** X13: the start-up log.  Both variants open the ticker file first.
    [app.py] prints its notice exactly when the file is missing and logs
    nothing else, also when it then fails on an empty list; [st2.py] logs
    nothing but the open, also when it fails on the missing file. *)
Theorem startup_log (E : Env) :
  events (App.startup E)
  = EvOpen "tickers.pickle"
    :: match pickle_file E with
       | Some _ => []
       | None => [EvPrint "tickers.pickle not found. Using default tickers."]
       end
  /\ events (St2.startup E) = [EvOpen "tickers.pickle"].
Proof.
  unfold App.startup, St2.startup, App.load_ticker_list, St2.load_ticker_list.
  destruct (pickle_file E) as [l |]; cbn [bind emit ret raise app].
  - destruct (st2_make_layout_ok E l) as (lay2 & -> & _).
    split; [ | reflexivity ].
    destruct l as [| x rest]; [ reflexivity | ].
    destruct (app_make_layout_ok E (x :: rest)) as (lay & -> & _);
      [ discriminate | reflexivity ].
  - destruct (app_make_layout_ok E App.default_tickers) as (lay & -> & _);
      [ discriminate | ].
    split; reflexivity.
Qed.

(** ** Columns a chart reads *)

Ltac chain_except c :=
  repeat match goal with
         | |- context [String.eqb c ?s] =>
             let H := fresh "Hc" in
             destruct (String.eqb c s) eqn:H;
             [ apply String.eqb_eq in H; subst c;
               first [ congruence | contradiction | reflexivity ] | ]
         end.

(** X14: apart from MACD and RSI, which hand the whole frame to stockstats, a
    chart reads the frame only through its index and its open, high, low and
    close columns: two frames that agree on these give the same figure, so
    the volume column is never drawn.  This holds in both variants. *)
Theorem charts_ignore_volume (E : Env) (df1 df2 : DataFrame) (c : string) (fig : Figure) :
  c <> "MACD" -> c <> "RSI" ->
  df_index df1 = df_index df2 -> col_open df1 = col_open df2 ->
  col_high df1 = col_high df2 -> col_low df1 = col_low df2 ->
  col_close df1 = col_close df2 ->
  App.select_graph E df1 df1 c fig = App.select_graph E df2 df2 c fig
  /\ St2.select_graph E (bound df1) c fig = St2.select_graph E (bound df2) c fig.
Proof.
  intros Hmacd Hrsi Hi Ho Hh Hl Hc.
  assert (Hi' : df_index (St2.scale_close df1) = df_index (St2.scale_close df2))
    by (rewrite !scale_close_index; exact Hi).
  assert (Ho' : col_open (St2.scale_close df1) = col_open (St2.scale_close df2))
    by (rewrite !scale_close_open; exact Ho).
  assert (Hh' : col_high (St2.scale_close df1) = col_high (St2.scale_close df2))
    by (rewrite !scale_close_high; exact Hh).
  assert (Hl' : col_low (St2.scale_close df1) = col_low (St2.scale_close df2))
    by (rewrite !scale_close_low; exact Hl).
  assert (Hc' : col_close (St2.scale_close df1) = col_close (St2.scale_close df2))
    by (rewrite !scale_close_close, Hc; reflexivity).
  split.
  - unfold App.select_graph. rewrite Hi, Ho, Hh, Hl, Hc. chain_except c. reflexivity.
  - unfold St2.select_graph, St2.use_df, St2.use_stock, bound.
    cbn [St2.loc_df St2.loc_stock bind ret].
    rewrite Hi', Ho', Hh', Hl', Hc'. chain_except c. reflexivity.
Qed.

Lemma charts_ignore_volume_witness :
  App.select_graph (sample_env None) three_days three_days "Candlestick" go_Figure
  = App.select_graph (sample_env None)
      (map (fun r => mkRow (r_date r) (r_open r) (r_high r) (r_low r) (r_close r) 0)
           three_days)
      (map (fun r => mkRow (r_date r) (r_open r) (r_high r) (r_low r) (r_close r) 0)
           three_days)
      "Candlestick" go_Figure.
Proof.
  apply (charts_ignore_volume (sample_env None) three_days
           (map (fun r => mkRow (r_date r) (r_open r) (r_high r) (r_low r) (r_close r) 0)
                three_days)
           "Candlestick" go_Figure);
    first [ discriminate | reflexivity ].
Defined.
